(** * ansible-packer: the AUR reconciliation module and its action plugin

    A shallow embedding of [library/packer.py] (class [Packer]) and of
    [action_plugins/packer.py] (class [ActionModule]).

    Python byte strings are [string]; the whitespace class is the one shared
    by [str.strip], [str.isspace] and the [\s] of [re] on byte strings.
    Subprocesses go through one primitive, [run_command], which asks the host
    for the answer and appends the command line to a log; [exit_json],
    [fail_json] and uncaught exceptions are the ways a call can end early. *)

From Stdlib Require Import Ascii String ZArith Lia Bool DecimalString.
From stdpp Require Import gmap strings list.

Local Open Scope Z_scope.

(** ** Python string primitives *)

Module Py.

Definition nl : ascii := "010"%char.
Definition cr : ascii := "013"%char.

(** [c.isspace()] on a byte string: space, \t, \n, \v, \f, \r. *)
Definition isspace (c : ascii) : bool :=
  let n := nat_of_ascii c in
  (Nat.eqb n 32 || (Nat.leb 9 n && Nat.leb n 13))%bool.

Fixpoint lstrip (s : string) : string :=
  match s with
  | String c s' => if isspace c then lstrip s' else s
  | EmptyString => EmptyString
  end.

(** [s.rstrip()]: a whitespace character is dropped when all that follows
    it has been dropped. *)
Fixpoint rstrip (s : string) : string :=
  match s with
  | String c s' =>
      match rstrip s' with
      | EmptyString => if isspace c then EmptyString else String c EmptyString
      | r => String c r
      end
  | EmptyString => EmptyString
  end.

Definition strip (s : string) : string := rstrip (lstrip s).

(** [s.splitlines()] on a byte string: breaks at \n, \r and \r\n; the breaks
    are not kept and a final break opens no further line. *)
Fixpoint splitlines (s : string) : list string :=
  match s with
  | EmptyString => []
  | String c s' =>
      if Ascii.eqb c nl then EmptyString :: splitlines s'
      else if Ascii.eqb c cr then
        match s' with
        | String d s'' =>
            if Ascii.eqb d nl then EmptyString :: splitlines s''
            else EmptyString :: splitlines s'
        | EmptyString => [EmptyString]
        end
      else
        match splitlines s' with
        | [] => [String c EmptyString]
        | l :: ls => String c l :: ls
        end
  end.

(** [c.lower()] in the C locale. *)
Definition lower_char (c : ascii) : ascii :=
  let n := nat_of_ascii c in
  if (Nat.leb 65 n && Nat.leb n 90)%bool then ascii_of_nat (n + 32) else c.

Fixpoint lower (s : string) : string :=
  match s with
  | String c s' => String (lower_char c) (lower s')
  | EmptyString => EmptyString
  end.

(** [sep.join(l)]. *)
Fixpoint join (sep : string) (l : list string) : string :=
  match l with
  | [] => EmptyString
  | [x] => x
  | x :: l' => x +:+ sep +:+ join sep l'
  end.

(** ['%s' % n] for a non-negative integer. *)
Definition str_of_nat (n : nat) : string :=
  NilZero.string_of_uint (Nat.to_uint n).

(** ['%s' % x] where [x] is a string or [None]. *)
Definition str_of_opt (x : option string) : string :=
  match x with Some s => s | None => "None" end.

(** Truth value of an object that is a string or [None]. *)
Definition truthy (x : option string) : bool :=
  match x with
  | Some (String _ _) => true
  | _ => false
  end.

(** Truth value of an object that is a bool or [None]. *)
Definition truthy_bool (x : option bool) : bool :=
  match x with Some b => b | None => false end.

End Py.

(** ** The fragment of [re] the module uses *)

Module Re.

Inductive cclass :=
| Dot                 (* [.]  : any character but \n *)
| Space               (* [\s] *)
| Lit (c : ascii).

Definition cmatch (k : cclass) (c : ascii) : bool :=
  match k with
  | Dot => negb (Ascii.eqb c Py.nl)
  | Space => Py.isspace c
  | Lit d => Ascii.eqb c d
  end.

Inductive atom :=
| One (k : cclass)
| Star (k : cclass)   (* greedy *)
| Plus (k : cclass)   (* greedy *)
| GOpen
| GClose.

(** What is left to match runs as the continuation [k]; group boundaries are
    recorded as offsets, most recent first. *)
Definition cont := string -> nat -> list nat -> option (list nat).

(** Greedy repetition of a one-character class: one more character first,
    and only when the rest fails from there, the rest from here. *)
Fixpoint greedy (c : cclass) (k : cont) (s : string) (pos : nat)
    (marks : list nat) : option (list nat) :=
  match s with
  | String a s' =>
      if cmatch c a then
        match greedy c k s' (S pos) marks with
        | Some m => Some m
        | None => k s pos marks
        end
      else k s pos marks
  | EmptyString => k s pos marks
  end.

(** Match a sequence of atoms at the head of [s]; the end of the pattern
    need not be the end of [s]. *)
Fixpoint rmatch (r : list atom) (s : string) (pos : nat) (marks : list nat)
    : option (list nat) :=
  match r with
  | [] => Some (rev marks)
  | GOpen :: r' => rmatch r' s pos (pos :: marks)
  | GClose :: r' => rmatch r' s pos (pos :: marks)
  | One c :: r' =>
      match s with
      | String a s' => if cmatch c a then rmatch r' s' (S pos) marks else None
      | EmptyString => None
      end
  | Star c :: r' => greedy c (rmatch r') s pos marks
  | Plus c :: r' =>
      match s with
      | String a s' =>
          if cmatch c a then greedy c (rmatch r') s' (S pos) marks else None
      | EmptyString => None
      end
  end.

(** [s[i:j]]. *)
Definition slice (i j : nat) (s : string) : string :=
  String.substring i (j - i) s.

(** [re.findall(p, s)] for a pattern [^...] with two groups, no MULTILINE:
    a match can only start at offset 0, so there is at most one, and each
    result is the pair of the two groups. *)
Definition findall2 (r : list atom) (s : string) : list (string * string) :=
  match rmatch r s 0%nat [] with
  | Some [a; b; c; d] => [(slice a b s, slice c d s)]
  | _ => []
  end.

(** [re.match('^\s', line)] as a truth value. *)
Definition match_space (line : string) : bool :=
  match line with
  | String c _ => Py.isspace c
  | EmptyString => false
  end.

(** [re.sub(r'\s+', '_', s)]: every maximal run of whitespace becomes one
    underscore. *)
Fixpoint sub_spaces (s : string) : string :=
  match s with
  | String c s' =>
      if Py.isspace c then
        match s' with
        | String d _ =>
            if Py.isspace d then sub_spaces s' else String "_" (sub_spaces s')
        | EmptyString => String "_" EmptyString
        end
      else String c (sub_spaces s')
  | EmptyString => EmptyString
  end.

End Re.

(** ** How a call ends, and the subprocess log *)

Inductive Exn := IndexError | KeyError.

(** A pure step that may raise. *)
Inductive Try (A : Type) :=
| Ok (a : A)
| Except (e : Exn).
Arguments Ok {A} a.
Arguments Except {A} e.

(** [exit_json] and [fail_json] end the process; an exception nobody catches
    does too. *)
Inductive Outcome (A : Type) :=
| Return (a : A)
| ExitJson (changed : bool) (msg : string)
| FailJson (msg : string)
| Raise (e : Exn).
Arguments Return {A} a.
Arguments ExitJson {A} changed msg.
Arguments FailJson {A} msg.
Arguments Raise {A} e.

(** What [run_command] hands back: [(rc, stdout, stderr)]. *)
Record Completed := { rc : Z; stdout : string; stderr : string }.

(** The commands run so far, oldest first. *)
Definition Log := list string.

Definition M (A : Type) := Log -> Outcome A * Log.

Definition ret {A} (a : A) : M A := fun log => (Return a, log).

Definition bind {A B} (m : M A) (k : A -> M B) : M B :=
  fun log =>
    match m log with
    | (Return a, log') => k a log'
    | (ExitJson c msg, log') => (ExitJson c msg, log')
    | (FailJson msg, log') => (FailJson msg, log')
    | (Raise e, log') => (Raise e, log')
    end.

Notation "'let*' x ':=' m 'in' k" := (bind m (fun x => k))
  (at level 10, x pattern, m at level 100, k at level 200).

Definition exit_json {A} (changed : bool) (msg : string) : M A :=
  fun log => (ExitJson changed msg, log).

Definition fail_json {A} (msg : string) : M A :=
  fun log => (FailJson msg, log).

Definition raise {A} (e : Exn) : M A := fun log => (Raise e, log).

Definition lift {A} (t : Try A) : M A :=
  match t with
  | Ok a => ret a
  | Except e => raise e
  end.

(** ** The module object and the process environment *)

(** [module.params], after argument_spec has been applied: a key that was
    not given holds [None]. *)
Record Params := {
  param_name : option (list string);
  param_state : option string;
  param_root : option string;
  param_upgrade : option bool;
}.

(** The AnsibleModule as the class uses it. [answer log cmd] is what the host
    replies to [cmd] after the commands of [log] have run. *)
Record AnsibleModule := {
  params : Params;
  check_mode : bool;
  get_bin_path : string -> option string;
  answer : Log -> string -> Completed;
}.

Definition run_command (module : AnsibleModule) (cmd : string) : M Completed :=
  fun log => (Return (answer module log cmd), log ++ [cmd]).

(** What the class reads from [os] and [pwd]. [getlogin = None] stands for
    [os.getlogin()] raising OSError. *)
Record Os := {
  getlogin : option string;
  environ : gmap string string;
  getpwuid_getuid : string;     (* pwd.getpwuid(os.getuid())[0] *)
}.

(** ** class Packer *)

Record Packer := {
  module : AnsibleModule;
  packer_path : string;
  expac_path : string;
}.

(** [Packer.__init__] *)
Definition Packer_init (module : AnsibleModule) : M Packer :=
  match get_bin_path module "packer" with
  | None => fail_json "unable to find packer executable"
  | Some packer_path =>
      match get_bin_path module "expac" with
      | None => fail_json "unable to find expac executable"
      | Some expac_path =>
          ret {| module := module; packer_path := packer_path;
                 expac_path := expac_path |}
      end
  end.

Definition normalized_state (self : Packer) : option string :=
  match param_state (params (module self)) with
  | Some state =>
      if (String.eqb state "present" || String.eqb state "installed")%bool
      then Some "present"
      else if String.eqb state "latest" then Some "latest"
      else None
  | None => None
  end.

(** The body is one expression statement: a bound method is compared with
    a string, the result is dropped, and the call returns [None]. *)
Definition should_update (self : Packer) : option bool :=
  let _ := false in None.

Definition should_upgrade (self : Packer) : option bool :=
  param_upgrade (params (module self)).

Definition version_cmd (self : Packer) (name : string) : string :=
  expac_path self +:+ " -Q '%v' " +:+ name.

Definition package_installed_version (self : Packer) (name : string)
    : M (option string) :=
  let* r := run_command (module self) (version_cmd self name) in
  if negb (rc r =? 0) then ret None
  else
    match Py.splitlines (stdout r) with
    | [] => raise IndexError
    | l :: _ => ret (Some (Py.strip l))
    end.

(** [line_acc[-1] += x], or [None] for the IndexError of an empty list. *)
Definition append_to_last (line_acc : list string) (x : string)
    : option (list string) :=
  match rev line_acc with
  | [] => None
  | l :: before => Some (rev before ++ [l +:+ x])
  end.

(** One turn of the loop over [stdout.splitlines()]. *)
Definition line_acc_step (line_acc : list string) (line : string)
    : list string :=
  if Re.match_space line then
    match append_to_last line_acc (" " +:+ Py.strip line) with
    | Some line_acc' => line_acc'
    | None => line_acc ++ [Py.strip line]
    end
  else line_acc ++ [Py.strip line].

Definition line_acc (stdout : string) : list string :=
  foldl line_acc_step [] (Py.splitlines stdout).

(** The compiled pattern [split_on_colons]: at the start of the line, a group
    of any characters, then one or more whitespace characters, a colon, any
    number of whitespace characters, and a second group of any characters.
    Both groups and all repetitions are greedy. *)
Definition split_on_colons : list Re.atom :=
  [Re.GOpen; Re.Star Re.Dot; Re.GClose;
   Re.Plus Re.Space; Re.One (Re.Lit ":"); Re.Star Re.Space;
   Re.GOpen; Re.Star Re.Dot; Re.GClose].

(** [[re.findall(split_on_colons, line)[0] for line in line_acc if line != '']] *)
Fixpoint kv_pairs (line_acc : list string) : Try (list (string * string)) :=
  match line_acc with
  | [] => Ok []
  | line :: rest =>
      if String.eqb line EmptyString then kv_pairs rest
      else
        match Re.findall2 split_on_colons line with
        | [] => Except IndexError
        | kv :: _ =>
            match kv_pairs rest with
            | Ok kvs => Ok (kv :: kvs)
            | Except e => Except e
            end
        end
  end.

Definition normalize_key (k : string) : string :=
  Py.lower (Re.sub_spaces (Py.strip k)).

(** [dict(pairs)]: a later pair replaces an earlier one with the same key. *)
Definition dict (pairs : list (string * string)) : gmap string string :=
  foldl (fun d kv => <[kv.1 := kv.2]> d) ∅ pairs.

Definition parse_info (stdout : string) : Try (gmap string string) :=
  match kv_pairs (line_acc stdout) with
  | Ok kvs =>
      Ok (dict (map (fun kv => (normalize_key kv.1, Py.strip kv.2)) kvs))
  | Except e => Except e
  end.

Definition info_cmd (self : Packer) (name : string) : string :=
  packer_path self +:+ " -Si --auronly " +:+ name.

Definition package_info (self : Packer) (name : string)
    : M (option (gmap string string)) :=
  let* r := run_command (module self) (info_cmd self name) in
  if negb (rc r =? 0) then ret None
  else
    let* d := lift (parse_info (stdout r)) in
    ret (Some d).

Definition login_name (os : Os) (self : Packer) : M (option string) :=
  match getlogin os with
  | Some login => ret (Some login)
  | None =>
      let logname_path := get_bin_path (module self) "logname" in
      let* login_name :=
        if Py.truthy logname_path then
          let* r := run_command (module self) (Py.str_of_opt logname_path) in
          if ((rc r =? 0) && negb (String.eqb (stdout r) EmptyString))%bool
          then
            match Py.splitlines (stdout r) with
            | [] => raise IndexError
            | l :: _ => ret (Some (Py.strip l))
            end
          else ret None
        else ret None in
      let login_name :=
        match login_name with
        | None => environ os !! "LOGNAME"
        | Some _ => login_name
        end in
      let login_name :=
        match login_name with
        | None => from_option Some login_name (environ os !! "SUDO_USER")
        | Some l =>
            if String.eqb l "root"
            then from_option Some login_name (environ os !! "SUDO_USER")
            else login_name
        end in
      ret login_name
  end.

(** The three lists of [check_packages], in the order it returns them. *)
Definition Buckets := (list string * list string * list string)%type.

(** The loop of [check_packages], from the lists built so far. *)
Fixpoint check_packages_loop (self : Packer) (should_update : option bool)
    (pkgs : list string) (would_change already_present not_found : list string)
    : M Buckets :=
  match pkgs with
  | [] => ret (would_change, already_present, not_found)
  | name :: pkgs' =>
      let* package_info := package_info self name in
      match package_info with
      | None =>
          check_packages_loop self should_update pkgs'
            would_change already_present (not_found ++ [name])
      | Some package_info =>
          let* package_installed_version :=
            package_installed_version self name in
          if Py.truthy_bool should_update then
            match package_installed_version with
            | None =>
                check_packages_loop self should_update pkgs'
                  (would_change ++ [name]) already_present not_found
            | Some installed =>
                match package_info !! "version" with
                | None => raise KeyError
                | Some version =>
                    if negb (String.eqb installed version) then
                      check_packages_loop self should_update pkgs'
                        (would_change ++ [name]) already_present not_found
                    else
                      check_packages_loop self should_update pkgs'
                        would_change (already_present ++ [name]) not_found
                end
            end
          else
            match package_installed_version with
            | None =>
                check_packages_loop self should_update pkgs'
                  (would_change ++ [name]) already_present not_found
            | Some _ =>
                check_packages_loop self should_update pkgs'
                  would_change (already_present ++ [name]) not_found
            end
      end
  end.

Definition check_packages (self : Packer) (pkgs : list string) : M Buckets :=
  check_packages_loop self (should_update self) pkgs [] [] [].

(** [pwd.getpwuid(os.getuid())[0] != login_name] *)
Definition switched_user (os : Os) (login_name : option string) : bool :=
  match login_name with
  | Some l => negb (String.eqb (getpwuid_getuid os) l)
  | None => true
  end.

(** The command prefix of [install_packages], from the resolved login name
    up to the optional root flag. *)
Definition base_cmd (self : Packer) (login_name : option string)
    (switched_user : bool) : M string :=
  let* base_cmd :=
    if switched_user then
      match get_bin_path (module self) "sudo" with
      | None => fail_json "unable to locate sudo executable"
      | Some sudo_path =>
          ret (sudo_path +:+ " -u " +:+ Py.str_of_opt login_name +:+ " "
               +:+ packer_path self)
      end
    else ret (packer_path self) in
  let base_cmd := base_cmd +:+ " --auronly --noconfirm --noedit" in
  let root := param_root (params (module self)) in
  if Py.truthy root then ret (base_cmd +:+ " --root " +:+ Py.str_of_opt root)
  else ret base_cmd.

Definition upgrade_cmd (base_cmd : string) : string := base_cmd +:+ " -Syu".

Definition install_cmd (base_cmd name : string) : string :=
  base_cmd +:+ " -S " +:+ name.

Definition install_failure_msg (login_name : option string)
    (switched_user : bool) (name stderr : string) : string :=
  let msg := "failed to install package " +:+ name +:+ ": " +:+ stderr in
  if negb switched_user then
    msg +:+ " (do you have passwordless sudo as user "
        +:+ Py.str_of_opt login_name +:+ "?)"
  else msg.

(** The loop over [pkgs] of [install_packages]; it yields [total_installed]. *)
Fixpoint install_loop (self : Packer) (base_cmd : string)
    (login_name : option string) (switched_user : bool)
    (pkgs : list string) (total_installed : nat) : M nat :=
  match pkgs with
  | [] => ret total_installed
  | name :: pkgs' =>
      let* r := run_command (module self) (install_cmd base_cmd name) in
      if negb (rc r =? 0) then
        fail_json (install_failure_msg login_name switched_user name (stderr r))
      else
        install_loop self base_cmd login_name switched_user pkgs'
          (total_installed + 1)
  end.

(** The bulk step of [install_packages]; [ret tt] is falling through to the
    per-package loop. *)
Definition upgrade_step (self : Packer) (base_cmd : string)
    (pkgs : list string) : M unit :=
  if Py.truthy_bool (should_upgrade self) then
    let* r := run_command (module self) (upgrade_cmd base_cmd) in
    if negb (rc r =? 0) then
      fail_json ("failed to upgrade packages: " +:+ stderr r)
    else if Nat.ltb (length pkgs) 1 then
      exit_json true "upgraded AUR packages"
    else ret tt
  else ret tt.

Definition install_packages (os : Os) (self : Packer)
    (pkgs : option (list string)) : M unit :=
  let pkgs := default [] pkgs in
  let* login_name := login_name os self in
  let switched_user := switched_user os login_name in
  let* base_cmd := base_cmd self login_name switched_user in
  let* _ := upgrade_step self base_cmd pkgs in
  let changed := false in
  let* total_installed :=
    install_loop self base_cmd login_name switched_user pkgs 0 in
  let changed := (changed || Nat.leb 1 total_installed)%bool in
  exit_json changed
    ("installed " +:+ Py.str_of_nat total_installed +:+ " package(s)").

(** The three clauses of [run] and the two flags, from the buckets. *)
Definition would_update_msg (normalized_state : option string)
    (would_update : list string) : string :=
  if Nat.leb 1 (length would_update)
  then "would update " +:+ Py.join ", " would_update
  else "all packages already " +:+ Py.str_of_opt normalized_state.

Definition already_present_msg (normalized_state : option string)
    (already_present : list string) : option string :=
  if Nat.leb 1 (length already_present)
  then Some (Py.join ", " already_present +:+ " already "
             +:+ Py.str_of_opt normalized_state)
  else None.

Definition not_found_msg (not_found : list string) : option string :=
  if Nat.leb 1 (length not_found)
  then Some ("could not find " +:+ Py.join ", " not_found)
  else None.

(** [[msg for msg in l if msg is not None]] *)
Definition not_none (l : list (option string)) : list string :=
  omap id l.

Definition run (os : Os) (self : Packer) : M unit :=
  let pkgs := default [] (param_name (params (module self))) in
  let normalized_state := normalized_state self in
  let* (would_update, already_present, not_found) :=
    check_packages self pkgs in
  let would_update_msg := would_update_msg normalized_state would_update in
  let changed := Nat.leb 1 (length would_update) in
  let already_present_msg :=
    already_present_msg normalized_state already_present in
  let not_found_msg := not_found_msg not_found in
  let failed := Nat.leb 1 (length not_found) in
  if check_mode (module self) then
    let msg_e :=
      not_none [Some would_update_msg; already_present_msg; not_found_msg] in
    exit_json changed (Py.join "; " msg_e)
  else if failed then
    (* [failed] is set together with [not_found_msg] *)
    fail_json (Py.str_of_opt not_found_msg)
  else if (negb changed && negb (Py.truthy_bool (should_upgrade self)))%bool
  then exit_json changed would_update_msg
  else install_packages os self (Some would_update).

Definition main (os : Os) (module : AnsibleModule) : M unit :=
  let* packer := Packer_init module in
  run os packer.

(** ** class ActionModule (the action plugin) *)

Module ActionModule.

(** A task argument as the dispatcher sees it. *)
Inductive Value :=
| VNone
| VStr (s : string)
| VBool (b : bool)
| VList (l : list string).

Definition Args := gmap string Value.

(** [v in ['absent', 'removed']] where [v] is [args.get('state')]. *)
Definition in_removal_states (v : option Value) : bool :=
  match v with
  | Some (VStr s) => (String.eqb s "absent" || String.eqb s "removed")%bool
  | _ => false
  end.

Section Run.
(** The result dictionaries hold values of some type [R]. *)
Context {R : Type}.
(** [ActionBase.run] and [ActionBase._execute_module], which the plugin
    inherits: the latter gets module_name, module_args and task_vars. *)
Variable super_run : option string -> gmap string Value -> gmap string R.
Variable _execute_module :
  string -> Args -> gmap string Value -> gmap string R.

(** [d.update(e)]: the keys of [e] win. *)
Definition update (d e : gmap string R) : gmap string R := e ∪ d.

Definition module_for (args : Args) : string :=
  if in_removal_states (args !! "state") then "pacman" else "packer".

Definition run (args : Args) (tmp : option string)
    (task_vars : option (gmap string Value)) : gmap string R :=
  let task_vars := default ∅ task_vars in
  let result := super_run tmp task_vars in
  let module := module_for args in
  update result (_execute_module module args task_vars).
End Run.

End ActionModule.

(** ** Notions the statements below use *)

(** A command that classification issues for one of [pkgs]. *)
Definition is_query (self : Packer) (pkgs : list string) (cmd : string)
    : Prop :=
  exists name,
    In name pkgs /\ (cmd = info_cmd self name \/ cmd = version_cmd self name).

(** A colon with a whitespace character right before it: what the pattern
    of [split_on_colons] needs somewhere in the line. *)
Fixpoint has_space_colon (s : string) : bool :=
  match s with
  | String a ((String b _) as s') =>
      (Py.isspace a && Ascii.eqb b ":" || has_space_colon s')%bool
  | _ => false
  end.

(** A colon anywhere in the line. *)
Fixpoint has_colon (s : string) : bool :=
  match s with
  | String a s' => (Ascii.eqb a ":" || has_colon s')%bool
  | EmptyString => false
  end.

(** Classification ends by returning or by an exception, never through
    [exit_json] or [fail_json]. *)
Definition no_exit {A} (o : Outcome A) : Prop :=
  match o with
  | ExitJson _ _ | FailJson _ => False
  | _ => True
  end.

(** What the external logname query and then LOGNAME resolve to once
    [os.getlogin()] has failed, and the log after that. *)
Inductive fallback_login (os : Os) (self : Packer) (log : Log)
    : option string -> Log -> Prop :=
| fallback_logname p l ls :
    get_bin_path (module self) "logname" = Some p ->
    p <> EmptyString ->
    rc (answer (module self) log p) = 0 ->
    Py.splitlines (stdout (answer (module self) log p)) = l :: ls ->
    fallback_login os self log (Some (Py.strip l)) (log ++ [p])
| fallback_env_after_query p :
    get_bin_path (module self) "logname" = Some p ->
    p <> EmptyString ->
    rc (answer (module self) log p) <> 0
    \/ stdout (answer (module self) log p) = EmptyString ->
    fallback_login os self log (environ os !! "LOGNAME") (log ++ [p])
| fallback_env_no_query :
    Py.truthy (get_bin_path (module self) "logname") = false ->
    fallback_login os self log (environ os !! "LOGNAME") log.

(** The line up to its first \n: what a greedy [.] repetition can take. *)
Fixpoint first_line (s : string) : string :=
  match s with
  | String c s' =>
      if Ascii.eqb c Py.nl then EmptyString else String c (first_line s')
  | EmptyString => EmptyString
  end.

Fixpoint has_nl (s : string) : bool :=
  match s with
  | String c s' => (Ascii.eqb c Py.nl || has_nl s')%bool
  | EmptyString => false
  end.

(** A whitespace character anywhere in the string. *)
Fixpoint has_space (s : string) : bool :=
  match s with
  | String c s' => (Py.isspace c || has_space s')%bool
  | EmptyString => false
  end.

(** An ASCII capital letter anywhere in the string. *)
Fixpoint has_upper (s : string) : bool :=
  match s with
  | String c s' =>
      (Nat.leb 65 (nat_of_ascii c) && Nat.leb (nat_of_ascii c) 90
       || has_upper s')%bool
  | EmptyString => false
  end.

(** The output lines that open a record of their own: those that do not
    begin with whitespace, and the first line whatever it begins with. *)
Definition record_openers (lines : list string) : nat :=
  (length (List.filter (fun l => negb (Re.match_space l)) lines)
   + match lines with
     | l :: _ => if Re.match_space l then 1 else 0
     | [] => 0
     end)%nat.

(** A host whose answers do not depend on what has run before. *)
Definition stateless (m : AnsibleModule) : Prop :=
  forall log log' cmd, answer m log cmd = answer m log' cmd.

(** On such a host: the metadata query for [name] exits zero. *)
Definition found (self : Packer) (name : string) : bool :=
  rc (answer (module self) [] (info_cmd self name)) =? 0.

(** On such a host: the installed-version query for [name] exits zero. *)
Definition installed (self : Packer) (name : string) : bool :=
  rc (answer (module self) [] (version_cmd self name)) =? 0.

(** On such a host: the version field of the metadata of [name]. *)
Definition remote_version (self : Packer) (name : string) : option string :=
  match parse_info (stdout (answer (module self) [] (info_cmd self name))) with
  | Ok d => d !! "version"
  | Except _ => None
  end.

(** On such a host: the first output line of the installed-version query,
    stripped. *)
Definition local_version (self : Packer) (name : string) : option string :=
  match Py.splitlines (stdout (answer (module self) [] (version_cmd self name))) with
  | l :: _ => Some (Py.strip l)
  | [] => None
  end.

(** On such a host: the queries one turn of the classification loop runs. *)
Definition queries (self : Packer) (name : string) : list string :=
  info_cmd self name :: (if found self name then [version_cmd self name] else []).

(** On such a host: [name] is installed in the version the metadata names. *)
Definition up_to_date (self : Packer) (name : string) : bool :=
  (installed self name
   && match local_version self name, remote_version self name with
      | Some i, Some r => String.eqb i r
      | _, _ => false
      end)%bool.

(** On such a host: what keeps a found name out of would_change, with the
    flag the loop was given. *)
Definition satisfied (self : Packer) (should_update : option bool)
    (name : string) : bool :=
  if Py.truthy_bool should_update then up_to_date self name
  else installed self name.

(** The same instance with another value of the state option. *)
Definition set_state (state : option string) (self : Packer) : Packer :=
  {| module :=
       {| params :=
            {| param_name := param_name (params (module self));
               param_state := state;
               param_root := param_root (params (module self));
               param_upgrade := param_upgrade (params (module self)) |};
          check_mode := check_mode (module self);
          get_bin_path := get_bin_path (module self);
          answer := answer (module self) |};
     packer_path := packer_path self;
     expac_path := expac_path self |}.

(** ** Sample hosts *)

Module Sample.

Definition nl : string := String Py.nl EmptyString.

Definition bins (cmd : string) : option string :=
  if String.eqb cmd "packer" then Some "/usr/bin/packer"
  else if String.eqb cmd "expac" then Some "/usr/bin/expac"
  else if String.eqb cmd "sudo" then Some "/usr/bin/sudo"
  else None.

Definition exits_0 (out : string) : Completed :=
  {| rc := 0; stdout := out; stderr := EmptyString |}.

Definition exits_1 (err : string) : Completed :=
  {| rc := 1; stdout := EmptyString; stderr := err |}.

(** cower 2.0 is in the AUR and 1.0 is installed; foo 0.3 is in the AUR and
    not installed; tool has a description with a colon between blanks; deps
    has a value that continues on the next line; the answer for junk is not
    metadata at all; the installed-version query for ghost succeeds and
    prints nothing; nothing else is known. As alice through sudo, the bulk
    upgrade and the install of foo succeed; every other command fails. *)
Definition host_answer (log : Log) (cmd : string) : Completed :=
  if String.eqb cmd "/usr/bin/packer -Si --auronly cower" then
    exits_0 ("Name           : cower" +:+ nl +:+
             "Version        : 2.0" +:+ nl +:+
             "Description    : A simple AUR agent" +:+ nl)
  else if String.eqb cmd "/usr/bin/packer -Si --auronly foo" then
    exits_0 ("Name           : foo" +:+ nl +:+ "Version        : 0.3" +:+ nl)
  else if String.eqb cmd "/usr/bin/packer -Si --auronly tool" then
    exits_0 ("Version        : 1.2" +:+ nl +:+
             "Description    : Organizer : personal edition" +:+ nl)
  else if String.eqb cmd "/usr/bin/packer -Si --auronly deps" then
    exits_0 ("Version        : 7" +:+ nl +:+
             "Depends On     : curl" +:+ nl +:+
             "                 yajl" +:+ nl)
  else if String.eqb cmd "/usr/bin/packer -Si --auronly junk" then
    exits_0 ("please try again later" +:+ nl)
  else if String.eqb cmd "/usr/bin/expac -Q '%v' ghost" then
    exits_0 EmptyString
  else if String.eqb cmd "/usr/bin/packer -Si --auronly broken" then
    exits_0 ("Name           : broken" +:+ nl +:+ "Version        : 1" +:+ nl)
  else if String.eqb cmd "/usr/bin/expac -Q '%v' cower" then
    exits_0 ("1.0" +:+ nl)
  else if String.eqb cmd
            "/usr/bin/sudo -u alice /usr/bin/packer --auronly --noconfirm --noedit -S foo"
  then exits_0 EmptyString
  else if String.eqb cmd
            "/usr/bin/sudo -u alice /usr/bin/packer --auronly --noconfirm --noedit -Syu"
  then exits_0 EmptyString
  else exits_1 "error: target not found".

Definition host_params (names : list string) (state : string)
    (upgrade : option bool) : Params :=
  {| param_name := Some names; param_state := Some state;
     param_root := None; param_upgrade := upgrade |}.

Definition host_module (check : bool) (p : Params) : AnsibleModule :=
  {| params := p; check_mode := check; get_bin_path := bins;
     answer := host_answer |}.

Definition host_packer (check : bool) (p : Params) : Packer :=
  {| module := host_module check p; packer_path := "/usr/bin/packer";
     expac_path := "/usr/bin/expac" |}.

(** root through sudo from alice's session: no controlling terminal. *)
Definition host_os : Os :=
  {| getlogin := None;
     environ := {[ "LOGNAME" := "root"; "SUDO_USER" := "alice" ]};
     getpwuid_getuid := "root" |}.

(** A session whose login name is root, entered through sudo by alice. *)
Definition root_session_os : Os :=
  {| getlogin := Some "root";
     environ := {[ "SUDO_USER" := "alice" ]};
     getpwuid_getuid := "root" |}.

(** The same host without sudo, and without any of the executables. *)
Definition bins_no_sudo (cmd : string) : option string :=
  if String.eqb cmd "sudo" then None else bins cmd.

Definition no_sudo_packer (p : Params) : Packer :=
  {| module := {| params := p; check_mode := false;
                  get_bin_path := bins_no_sudo; answer := host_answer |};
     packer_path := "/usr/bin/packer"; expac_path := "/usr/bin/expac" |}.

Definition bare_module (p : Params) : AnsibleModule :=
  {| params := p; check_mode := false; get_bin_path := fun _ => None;
     answer := host_answer |}.

(** alice herself, on her own terminal. *)
Definition alice_os : Os :=
  {| getlogin := Some "alice"; environ := ∅; getpwuid_getuid := "alice" |}.

End Sample.

(** * Properties *)

(** ** The metadata parser *)

Lemma has_space_colon_tail a s :
  has_space_colon (String a s) = false -> has_space_colon s = false.
Proof.
  destruct s as [|b s]; simpl; [done|].
  intros H. apply orb_false_iff in H as [_ H]. exact H.
Qed.

Lemma has_space_colon_head a b s :
  has_space_colon (String a (String b s)) = false ->
  Py.isspace a = true -> Ascii.eqb b ":" = false.
Proof.
  simpl. intros H Ha. rewrite Ha in H. simpl in H.
  apply orb_false_iff in H as [H _]. exact H.
Qed.

Section NoDelimiter.
Variable rest : list Re.atom.

(** After whitespace, the greedy whitespace loop never reaches a colon. *)
Lemma spaces_then_colon_fails s :
  has_space_colon s = false ->
  (forall b s', s = String b s' -> Ascii.eqb b ":" = false) ->
  forall pos marks,
    Re.greedy Re.Space (Re.rmatch (Re.One (Re.Lit ":") :: rest)) s pos marks
    = None.
Proof.
  induction s as [|a s IH]; intros Hsc Hhd pos marks; simpl; [done|].
  assert (Hcolon : Ascii.eqb a ":" = false) by (eapply Hhd; reflexivity).
  destruct (Py.isspace a) eqn:Ha; [|by rewrite Hcolon].
  rewrite IH, Hcolon; [done|by eapply has_space_colon_tail|].
  intros b s' ->. by eapply has_space_colon_head.
Qed.

Lemma delimiter_fails s pos marks :
  has_space_colon s = false ->
  Re.rmatch (Re.Plus Re.Space :: Re.One (Re.Lit ":") :: rest) s pos marks
  = None.
Proof.
  intros Hsc. destruct s as [|a s]; simpl; [done|].
  destruct (Py.isspace a) eqn:Ha; [|done].
  apply spaces_then_colon_fails; [by eapply has_space_colon_tail|].
  intros b s' ->. by eapply has_space_colon_head.
Qed.

Lemma key_then_delimiter_fails s :
  has_space_colon s = false ->
  forall pos marks,
    Re.greedy Re.Dot
      (Re.rmatch
         (Re.GClose :: Re.Plus Re.Space :: Re.One (Re.Lit ":") :: rest))
      s pos marks = None.
Proof.
  induction s as [|a s IH]; intros Hsc pos marks.
  - reflexivity.
  - cbn [Re.greedy]. rewrite IH by (by eapply has_space_colon_tail).
    assert (Re.rmatch
              (Re.GClose :: Re.Plus Re.Space :: Re.One (Re.Lit ":") :: rest)
              (String a s) pos marks = None) as ->
      by (apply (delimiter_fails (String a s) pos (pos :: marks) Hsc)).
    by destruct (Re.cmatch Re.Dot a).
Qed.
End NoDelimiter.

Lemma findall_without_space_colon line :
  has_space_colon line = false -> Re.findall2 split_on_colons line = [].
Proof.
  intros H. unfold Re.findall2, split_on_colons.
  change (Re.rmatch (Re.GOpen :: Re.Star Re.Dot :: ?r) line 0%nat [])
    with (Re.greedy Re.Dot (Re.rmatch r) line 0%nat [0%nat]).
  by rewrite key_then_delimiter_fails.
Qed.

Lemma kv_pairs_only_IndexError l e : kv_pairs l = Except e -> e = IndexError.
Proof.
  induction l as [|line l IH]; simpl; [done|].
  destruct (String.eqb line EmptyString); [done|].
  destruct (Re.findall2 split_on_colons line); [congruence|].
  destruct (kv_pairs l); [done|]. intros [= <-]. by apply IH.
Qed.

Lemma kv_pairs_bad_record l record :
  In record l -> record <> EmptyString ->
  Re.findall2 split_on_colons record = [] ->
  kv_pairs l = Except IndexError.
Proof.
  intros Hin Hne Hfind. induction l as [|line l IH]; [done|].
  simpl. destruct (String.eqb_spec line EmptyString) as [->|Hline].
  - destruct Hin as [<-|Hin]; [done|by apply IH].
  - destruct Hin as [->|Hin]; [by rewrite Hfind|].
    destruct (Re.findall2 split_on_colons line); [done|].
    by rewrite IH.
Qed.

(** C10, as worded, fails on a continuation line: the metadata of deps has
    the non-blank output line [yajl] (indented), which holds no colon at all,
    and parsing returns a mapping, with that line joined to the value of the
    line before it. *)
Lemma continuation_line_without_colon_parses :
  let self := Sample.host_packer true (Sample.host_params ["deps"] "present" None) in
  let r := answer (module self) [] (info_cmd self "deps") in
  let line := "                 yajl" in
  rc r = 0 /\
  In line (Py.splitlines (stdout r)) /\
  Py.strip line <> EmptyString /\
  has_colon line = false /\
  (package_info self "deps" []).1 <> Raise IndexError /\
  exists d, package_info self "deps" [] = (Return (Some d), [info_cmd self "deps"])
            /\ d !! "depends_on" = Some "curl yajl".
Proof.
  cbv zeta. split; [reflexivity|]. split; [vm_compute; tauto|].
  split; [vm_compute; discriminate|]. split; [reflexivity|].
  split; [vm_compute; discriminate|].
  eexists. split; vm_compute; reflexivity.
Qed.

(** C10, amended. A record is an entry of [line_acc]: an output line with
    the continuation lines after it joined on. When the metadata query exits
    zero and some record is non-empty and has no colon preceded by
    whitespace, [package_info] raises IndexError; when the installed-version
    query exits zero with empty output, [package_installed_version] raises
    IndexError. *)
Theorem package_queries_raise_IndexError :
  (forall (self : Packer) (name : string) (log : Log) (record : string),
     rc (answer (module self) log (info_cmd self name)) = 0 ->
     In record (line_acc (stdout (answer (module self) log (info_cmd self name)))) ->
     record <> EmptyString ->
     has_space_colon record = false ->
     package_info self name log
     = (Raise IndexError, log ++ [info_cmd self name]))
  /\
  (forall (self : Packer) (name : string) (log : Log),
     rc (answer (module self) log (version_cmd self name)) = 0 ->
     stdout (answer (module self) log (version_cmd self name)) = EmptyString ->
     package_installed_version self name log
     = (Raise IndexError, log ++ [version_cmd self name])).
Proof.
  split.
  - intros self name log record Hrc Hin Hne Hsc.
    unfold package_info, bind, run_command. rewrite Hrc. simpl.
    unfold parse_info.
    rewrite (kv_pairs_bad_record _ record Hin Hne
               (findall_without_space_colon _ Hsc)).
    reflexivity.
  - intros self name log Hrc Hout.
    unfold package_installed_version, bind, run_command.
    rewrite Hrc, Hout. reflexivity.
Qed.

Lemma package_queries_raise_IndexError_witness :
  let self := Sample.host_packer true (Sample.host_params ["junk"] "present" None) in
  package_info self "junk" [] = (Raise IndexError, [info_cmd self "junk"])
  /\ package_installed_version self "ghost" []
     = (Raise IndexError, [version_cmd self "ghost"]).
Proof.
  cbv zeta. split.
  - apply (proj1 package_queries_raise_IndexError
             (Sample.host_packer true (Sample.host_params ["junk"] "present" None))
             "junk" [] "please try again later").
    + reflexivity.
    + vm_compute. tauto.
    + discriminate.
    + reflexivity.
  - apply (proj2 package_queries_raise_IndexError
             (Sample.host_packer true (Sample.host_params ["junk"] "present" None))
             "ghost" []).
    + reflexivity.
    + reflexivity.
Defined.

(** C3, at a line whose value holds a colon between blanks: the pattern
    splits at the last such colon, not the first. The key is everything
    before the last one, normalized, and the value only what follows it. *)
Theorem value_with_colon_splits_at_last_delimiter :
  let self := Sample.host_packer true (Sample.host_params ["tool"] "present" None) in
  let line := "Description    : Organizer : personal edition" in
  In line (Py.splitlines (stdout (answer (module self) [] (info_cmd self "tool"))))
  /\ Re.findall2 split_on_colons line
     = [("Description    : Organizer", "personal edition")]
  /\ exists d,
       package_info self "tool" [] = (Return (Some d), [info_cmd self "tool"])
       /\ d !! "description" = None
       /\ d !! "description_:_organizer" = Some "personal edition".
Proof.
  cbv zeta. split; [vm_compute; tauto|]. split; [reflexivity|].
  eexists. split; [vm_compute; reflexivity|]. split; vm_compute; reflexivity.
Qed.

(** ** Classification *)

(** C1, at cower with state latest, 2.0 in the AUR and 1.0 installed:
    [should_update] returns [None], so the versions are never compared and
    the name lands in already_present. *)
Theorem latest_with_older_installed_is_already_present :
  let self := Sample.host_packer false (Sample.host_params ["cower"] "latest" None) in
  normalized_state self = Some "latest"
  /\ Py.truthy_bool (should_update self) = false
  /\ (exists d,
        (package_info self "cower" []).1 = Return (Some d)
        /\ d !! "version" = Some "2.0")
  /\ (package_installed_version self "cower" [info_cmd self "cower"]).1
     = Return (Some "1.0")
  /\ check_packages self ["cower"] []
     = (Return ([], ["cower"], []),
        [info_cmd self "cower"; version_cmd self "cower"]).
Proof.
  cbv zeta. split; [reflexivity|]. split; [reflexivity|].
  split; [eexists; split; vm_compute; reflexivity|].
  split; vm_compute; reflexivity.
Qed.

Lemma bind_Return {A B} (m : M A) (k : A -> M B) log b log' :
  bind m k log = (Return b, log') ->
  exists a log1, m log = (Return a, log1) /\ k a log1 = (Return b, log').
Proof.
  unfold bind. destruct (m log) as [[a|c msg|msg|e] log1]; try discriminate.
  intros H. by exists a, log1.
Qed.

Lemma bind_step {A B} (m : M A) (k : A -> M B) log a log1 :
  m log = (Return a, log1) -> bind m k log = k a log1.
Proof. unfold bind. by intros ->. Qed.

Lemma splitlines_nonempty s : s <> EmptyString -> Py.splitlines s <> [].
Proof.
  destruct s as [|c s]; [done|]. intros _. simpl.
  destruct (Ascii.eqb c Py.nl); [done|].
  destruct (Ascii.eqb c Py.cr).
  - destruct s as [|d s]; [done|]. by destruct (Ascii.eqb d Py.nl).
  - by destruct (Py.splitlines s).
Qed.

Lemma package_info_not_found self name log :
  rc (answer (module self) log (info_cmd self name)) <> 0 ->
  package_info self name log = (Return None, log ++ [info_cmd self name]).
Proof.
  intros Hrc. unfold package_info, bind, run_command.
  apply Z.eqb_neq in Hrc. by rewrite Hrc.
Qed.

Lemma check_packages_loop_grows self su pkgs :
  forall w a n log w' a' n' log',
    check_packages_loop self su pkgs w a n log = (Return (w', a', n'), log') ->
    exists dw da dn,
      w' = w ++ dw /\ a' = a ++ da /\ n' = n ++ dn /\ pkgs ≡ₚ dw ++ da ++ dn.
Proof.
  induction pkgs as [|name pkgs IH]; intros w a n log w' a' n' log'.
  - intros [= <- <- <- <-]. exists [], [], []. by rewrite !app_nil_r.
  - cbn [check_packages_loop]. intros H.
    apply bind_Return in H as (info & log1 & _ & H).
    destruct info as [info|].
    + apply bind_Return in H as (v & log2 & _ & H).
      assert (Hw : forall l, check_packages_loop self su pkgs (w ++ [name]) a n l
                             = (Return (w', a', n'), log') ->
                  exists dw da dn, w' = w ++ dw /\ a' = a ++ da /\ n' = n ++ dn
                                   /\ name :: pkgs ≡ₚ dw ++ da ++ dn).
      { intros l Hl. apply IH in Hl as (dw & da & dn & -> & -> & -> & Hp).
        exists (name :: dw), da, dn. rewrite <- !app_assoc. simpl.
        by rewrite Hp. }
      assert (Ha : forall l, check_packages_loop self su pkgs w (a ++ [name]) n l
                             = (Return (w', a', n'), log') ->
                  exists dw da dn, w' = w ++ dw /\ a' = a ++ da /\ n' = n ++ dn
                                   /\ name :: pkgs ≡ₚ dw ++ da ++ dn).
      { intros l Hl. apply IH in Hl as (dw & da & dn & -> & -> & -> & Hp).
        exists dw, (name :: da), dn. rewrite <- !app_assoc. simpl.
        split; [done|]. split; [done|]. split; [done|].
        rewrite Hp. by rewrite Permutation_middle. }
      destruct (Py.truthy_bool su), v as [v|]; eauto.
      destruct (info !! "version") as [version|]; [|discriminate].
      destruct (negb (String.eqb v version)); eauto.
    + apply IH in H as (dw & da & dn & -> & -> & -> & Hp).
      exists dw, da, (name :: dn). rewrite <- !app_assoc. simpl.
      split; [done|]. split; [done|]. split; [done|].
      rewrite Hp. rewrite (app_assoc dw da (name :: dn)).
      rewrite <- Permutation_middle. by rewrite <- app_assoc.
Qed.

Lemma check_packages_loop_app self su xs :
  forall ys w a n log,
    check_packages_loop self su (xs ++ ys) w a n log
    = bind (check_packages_loop self su xs w a n)
        (fun b => check_packages_loop self su ys b.1.1 b.1.2 b.2) log.
Proof.
  induction xs as [|name xs IH]; intros ys w a n log; [reflexivity|].
  cbn [app check_packages_loop]. unfold bind in *.
  destruct (package_info self name log) as [[[info|]|c m|m|e] log1];
    try reflexivity; [|apply IH].
  destruct (package_installed_version self name log1)
    as [[v|c m|m|e] log2]; try reflexivity.
  destruct (Py.truthy_bool su), v as [v|]; try apply IH.
  destruct (info !! "version") as [version|]; [|reflexivity].
  destruct (negb (String.eqb v version)); apply IH.
Qed.

Lemma check_packages_loop_returns self pkgs :
  (forall l name, In name pkgs ->
     rc (answer (module self) l (info_cmd self name)) = 0 ->
     exists d, parse_info (stdout (answer (module self) l (info_cmd self name)))
               = Ok d) ->
  (forall l name, In name pkgs ->
     rc (answer (module self) l (version_cmd self name)) = 0 ->
     stdout (answer (module self) l (version_cmd self name)) <> EmptyString) ->
  forall w a n log,
    exists w' a' n' log',
      check_packages_loop self None pkgs w a n log = (Return (w', a', n'), log').
Proof.
  induction pkgs as [|name pkgs IH]; intros Hinfo Hver w a n log.
  - by exists w, a, n, log.
  - assert (IH' := IH (fun l x Hx => Hinfo l x (or_intror Hx))
                      (fun l x Hx => Hver l x (or_intror Hx))).
    cbn [check_packages_loop].
    unfold bind at 1, package_info at 1, bind at 1, run_command at 1.
    destruct (Z.eqb_spec (rc (answer (module self) log (info_cmd self name))) 0)
      as [Hrc|Hrc]; simpl; [|apply IH'].
    destruct (Hinfo log name (or_introl eq_refl) Hrc) as [d ->]. simpl.
    unfold bind at 1, package_installed_version at 1, bind at 1,
      run_command at 1.
    set (log1 := log ++ [info_cmd self name]).
    destruct (Z.eqb_spec (rc (answer (module self) log1 (version_cmd self name))) 0)
      as [Hrc'|Hrc']; simpl; [|apply IH'].
    pose proof (splitlines_nonempty _ (Hver log1 name (or_introl eq_refl) Hrc')).
    destruct (Py.splitlines _); [done|]. simpl. apply IH'.
Qed.

(** C5. Whenever classification returns its buckets, they hold the
    requested names occurrence for occurrence (a permutation of the request);
    an occurrence whose metadata query exits non-zero goes to not_found
    whatever the state and whatever the host would say about the installed
    version, and costs that one query only; and classification does return
    its buckets when the answers of the tools are well formed. *)
Theorem classification_partitions_and_not_found_dominates
    (self : Packer) (pkgs : list string) (log : Log) :
  (forall w a n log',
     check_packages self pkgs log = (Return (w, a, n), log') ->
     pkgs ≡ₚ w ++ a ++ n)
  /\
  (forall pre name post w a n log1,
     pkgs = pre ++ name :: post ->
     check_packages self pre log = (Return (w, a, n), log1) ->
     rc (answer (module self) log1 (info_cmd self name)) <> 0 ->
     check_packages self (pre ++ [name]) log
     = (Return (w, a, n ++ [name]), log1 ++ [info_cmd self name])
     /\ check_packages self pkgs log
        = check_packages_loop self (should_update self) post
            w a (n ++ [name]) (log1 ++ [info_cmd self name])
     /\ forall w' a' n' log',
          check_packages self pkgs log = (Return (w', a', n'), log') ->
          exists n2, n' = n ++ name :: n2)
  /\
  ((forall l name, In name pkgs ->
      rc (answer (module self) l (info_cmd self name)) = 0 ->
      exists d, parse_info (stdout (answer (module self) l (info_cmd self name)))
                = Ok d) ->
   (forall l name, In name pkgs ->
      rc (answer (module self) l (version_cmd self name)) = 0 ->
      stdout (answer (module self) l (version_cmd self name)) <> EmptyString) ->
   exists w a n log',
     check_packages self pkgs log = (Return (w, a, n), log')).
Proof.
  split; [|split].
  - intros w a n log' H.
    apply check_packages_loop_grows in H as (dw & da & dn & -> & -> & -> & Hp).
    exact Hp.
  - intros pre name post w a n log1 -> Hpre Hrc.
    assert (Hone : forall rest,
               check_packages self (pre ++ name :: rest) log
               = check_packages_loop self (should_update self) rest
                   w a (n ++ [name]) (log1 ++ [info_cmd self name])).
    { intros rest. unfold check_packages in *.
      rewrite check_packages_loop_app, (bind_step _ _ _ _ _ Hpre).
      cbn [check_packages_loop fst snd].
      by rewrite (bind_step _ _ _ _ _ (package_info_not_found _ _ _ Hrc)). }
    split; [exact (Hone [])|]. split; [exact (Hone post)|].
    intros w' a' n' log'. rewrite Hone. intros H.
    apply check_packages_loop_grows in H as (dw & da & dn & _ & _ & -> & _).
    exists dn. by rewrite <- app_assoc.
  - intros Hinfo Hver. by apply check_packages_loop_returns.
Qed.

Lemma classification_partitions_and_not_found_dominates_witness :
  let self := Sample.host_packer true
                (Sample.host_params ["cower"; "aura"; "foo"] "latest" None) in
  ["cower"; "aura"; "foo"] ≡ₚ ["foo"] ++ ["cower"] ++ ["aura"]
  /\ check_packages self ["cower"; "aura"] []
     = (Return ([], ["cower"], ["aura"]),
        [info_cmd self "cower"; version_cmd self "cower"; info_cmd self "aura"])
  /\ exists w a n log',
       check_packages self ["cower"; "aura"; "foo"] []
       = (Return (w, a, n), log').
Proof.
  cbv zeta.
  destruct (classification_partitions_and_not_found_dominates
              (Sample.host_packer true
                 (Sample.host_params ["cower"; "aura"; "foo"] "latest" None))
              ["cower"; "aura"; "foo"] []) as (H1 & H2 & H3).
  split; [|split].
  - eapply H1. vm_compute. reflexivity.
  - refine (proj1 (H2 ["cower"] "aura" ["foo"] [] ["cower"] []
                     ["/usr/bin/packer -Si --auronly cower";
                      "/usr/bin/expac -Q '%v' cower"] eq_refl _ _)).
    + vm_compute. reflexivity.
    + vm_compute. discriminate.
  - apply H3.
    + intros l name [<-|[<-|[<-|[]]]] Hrc.
      * eexists. vm_compute. reflexivity.
      * vm_compute in Hrc. discriminate.
      * eexists. vm_compute. reflexivity.
    + intros l name [<-|[<-|[<-|[]]]] Hrc;
        vm_compute in Hrc; discriminate.
Defined.

(** ** The dry run and the verdict of [run] *)

Lemma package_info_log self name log :
  (package_info self name log).2 = log ++ [info_cmd self name].
Proof.
  unfold package_info, bind, run_command.
  destruct (negb _); [done|]. simpl. by destruct (parse_info _).
Qed.

Lemma package_installed_version_log self name log :
  (package_installed_version self name log).2 = log ++ [version_cmd self name].
Proof.
  unfold package_installed_version, bind, run_command.
  destruct (negb _); [done|]. by destruct (Py.splitlines _).
Qed.

Lemma is_query_cons self name pkgs new :
  Forall (is_query self pkgs) new -> Forall (is_query self (name :: pkgs)) new.
Proof.
  intros H. eapply Forall_impl; [exact H|].
  intros cmd (x & Hx & Hcmd). exists x. split; [by right|done].
Qed.

Lemma check_packages_loop_log self su pkgs :
  forall w a n log,
    exists new,
      (check_packages_loop self su pkgs w a n log).2 = log ++ new
      /\ Forall (is_query self pkgs) new.
Proof.
  induction pkgs as [|name pkgs IH]; intros w a n log.
  - exists []. by rewrite app_nil_r.
  - assert (Hi : is_query self (name :: pkgs) (info_cmd self name))
      by (exists name; split; [by left|by left]).
    assert (Hv : is_query self (name :: pkgs) (version_cmd self name))
      by (exists name; split; [by left|by right]).
    assert (K1 : forall w a n,
               exists new,
                 (check_packages_loop self su pkgs w a n
                    (log ++ [info_cmd self name])).2 = log ++ new
                 /\ Forall (is_query self (name :: pkgs)) new).
    { intros w0 a0 n0.
      destruct (IH w0 a0 n0 (log ++ [info_cmd self name])) as (new & -> & Hq).
      exists (info_cmd self name :: new). rewrite <- app_assoc. split; [done|].
      constructor; [done|by apply is_query_cons]. }
    assert (K2 : forall w a n,
               exists new,
                 (check_packages_loop self su pkgs w a n
                    ((log ++ [info_cmd self name]) ++ [version_cmd self name])).2
                 = log ++ new
                 /\ Forall (is_query self (name :: pkgs)) new).
    { intros w0 a0 n0.
      destruct (IH w0 a0 n0 ((log ++ [info_cmd self name]) ++ [version_cmd self name]))
        as (new & -> & Hq).
      exists (info_cmd self name :: version_cmd self name :: new).
      rewrite <- !app_assoc. split; [done|].
      repeat constructor; [done|done|by apply is_query_cons]. }
    assert (E1 : exists new, log ++ [info_cmd self name] = log ++ new
                             /\ Forall (is_query self (name :: pkgs)) new)
      by (eexists; split; [done|by repeat constructor]).
    assert (E2 : exists new,
               (log ++ [info_cmd self name]) ++ [version_cmd self name]
               = log ++ new
               /\ Forall (is_query self (name :: pkgs)) new)
      by (eexists; rewrite <- app_assoc; split; [done|by repeat constructor]).
    cbn [check_packages_loop]. unfold bind.
    pose proof (package_info_log self name log) as Hl1.
    destruct (package_info self name log) as [[[info|]|c m|m|e] log1];
      simpl in Hl1; subst log1; simpl; try done.
    pose proof (package_installed_version_log self name
                  (log ++ [info_cmd self name])) as Hl2.
    destruct (package_installed_version self name (log ++ [info_cmd self name]))
      as [[v|c m|m|e] log2]; simpl in Hl2; subst log2; simpl; try done.
    destruct (Py.truthy_bool su), v as [v|]; try done.
    destruct (info !! "version") as [version|]; [|done].
    by destruct (negb (String.eqb v version)).
Qed.

Lemma package_info_no_exit self name log :
  no_exit (package_info self name log).1.
Proof.
  unfold package_info, bind, run_command.
  destruct (negb _); [done|]. simpl. by destruct (parse_info _).
Qed.

Lemma package_installed_version_no_exit self name log :
  no_exit (package_installed_version self name log).1.
Proof.
  unfold package_installed_version, bind, run_command.
  destruct (negb _); [done|]. by destruct (Py.splitlines _).
Qed.

Lemma check_packages_loop_no_exit self su pkgs :
  forall w a n log, no_exit (check_packages_loop self su pkgs w a n log).1.
Proof.
  induction pkgs as [|name pkgs IH]; intros w a n log; [done|].
  cbn [check_packages_loop]. unfold bind.
  pose proof (package_info_no_exit self name log) as H1.
  destruct (package_info self name log) as [[[info|]|c m|m|e] log1];
    cbn [fst] in *; try done.
  pose proof (package_installed_version_no_exit self name log1) as H2.
  destruct (package_installed_version self name log1)
    as [[v|c m|m|e] log2]; cbn [fst] in *; try done.
  destruct (Py.truthy_bool su), v as [v|]; try done.
  destruct (info !! "version") as [version|]; [|done].
  by destruct (negb (String.eqb v version)).
Qed.

Lemma leb_1_length {A} (l : list A) :
  Nat.leb 1 (length l) = bool_decide (l <> []).
Proof. by destruct l. Qed.

(** C6. In check mode [run] is classification followed by [exit_json]: the
    log grows by the queries of classification and nothing else, each of them
    a metadata or installed-version query for a requested name; the run ends
    in [exit_json] whenever classification returns, and the changed flag it
    reports is true exactly when the would-update bucket is non-empty. *)
Theorem dry_run_runs_queries_only (os : Os) (self : Packer) (log : Log) :
  check_mode (module self) = true ->
  let pkgs := default [] (param_name (params (module self))) in
  (run os self log).2 = (check_packages self pkgs log).2
  /\ (exists new,
        (run os self log).2 = log ++ new /\ Forall (is_query self pkgs) new)
  /\ (forall w a n log',
        check_packages self pkgs log = (Return (w, a, n), log') ->
        exists msg,
          run os self log = (ExitJson (bool_decide (w <> [])) msg, log'))
  /\ (forall changed msg log',
        run os self log = (ExitJson changed msg, log') ->
        exists w a n,
          check_packages self pkgs log = (Return (w, a, n), log')
          /\ (changed = true <-> w <> [])).
Proof.
  intros Hcheck pkgs.
  destruct (check_packages_loop_log self (should_update self) pkgs [] [] [] log)
    as (new & Hnew & Hq).
  pose proof (check_packages_loop_no_exit self (should_update self) pkgs
                [] [] [] log) as Hne.
  fold (check_packages self pkgs) in Hnew, Hne.
  unfold run. fold pkgs. unfold bind.
  destruct (check_packages self pkgs log) as [[[[w a] n]|c m|m|e] log1];
    rewrite ?Hcheck; cbn [fst snd] in *; try done.
  - split; [done|]. split; [by exists new|]. split.
    + intros w' a' n' log' [= <- <- <- <-]. rewrite leb_1_length. by eexists.
    + unfold exit_json. intros changed msg log' [= <- <- <-].
      exists w, a, n. split; [done|]. by destruct w.
  - split; [done|]. split; [by exists new|]. by split.
Qed.

Lemma dry_run_runs_queries_only_witness :
  let self := Sample.host_packer true
                (Sample.host_params ["cower"; "aura"; "foo"] "latest" None) in
  check_mode (module self) = true
  /\ (run Sample.host_os self []).2
     = (check_packages self ["cower"; "aura"; "foo"] []).2.
Proof.
  cbv zeta. split; [reflexivity|].
  exact (proj1 (dry_run_runs_queries_only Sample.host_os
                  (Sample.host_packer true
                     (Sample.host_params ["cower"; "aura"; "foo"] "latest" None))
                  [] eq_refl)).
Defined.

(** C2, as worded, fails: in check mode with aura not in the AUR, the run
    ends in [exit_json] with the changed flag and the joined message; it is
    not reported as failed. *)
Lemma dry_run_with_not_found_exits_normally :
  let self := Sample.host_packer true (Sample.host_params ["aura"] "present" None) in
  check_mode (module self) = true
  /\ check_packages self ["aura"] []
     = (Return ([], [], ["aura"]), [info_cmd self "aura"])
  /\ run Sample.host_os self []
     = (ExitJson false "all packages already present; could not find aura",
        [info_cmd self "aura"])
  /\ (run Sample.host_os self []).1 <> FailJson "could not find aura".
Proof.
  cbv zeta. split; [reflexivity|]. split; [vm_compute; reflexivity|].
  split; [vm_compute; reflexivity|]. vm_compute. discriminate.
Qed.

(** C2, amended. With a non-empty not_found bucket, the run in check mode
    ends in [exit_json]: changed tells whether the would-update bucket is
    non-empty and the message is the clauses joined, the could-not-find
    clause last. Outside check mode the run ends in [fail_json] with the
    could-not-find clause as its message, and nothing more is run. *)
Theorem not_found_verdict (os : Os) (self : Packer) (log : Log)
    (w a n : list string) (log' : Log) :
  check_packages self (default [] (param_name (params (module self)))) log
  = (Return (w, a, n), log') ->
  n <> [] ->
  (check_mode (module self) = true ->
   run os self log
   = (ExitJson (bool_decide (w <> []))
        (Py.join "; "
           (not_none
              [Some (would_update_msg (normalized_state self) w);
               already_present_msg (normalized_state self) a;
               Some ("could not find " +:+ Py.join ", " n)])),
      log'))
  /\
  (check_mode (module self) = false ->
   run os self log = (FailJson ("could not find " +:+ Py.join ", " n), log')).
Proof.
  intros Hcp Hn. unfold run. rewrite (bind_step _ _ _ _ _ Hcp).
  assert (Hmsg : not_found_msg n = Some ("could not find " +:+ Py.join ", " n))
    by (by destruct n).
  assert (Hfailed : Nat.leb 1 (length n) = true) by (by destruct n).
  split; intros ->.
  - by rewrite Hmsg, leb_1_length.
  - by rewrite Hfailed, Hmsg.
Qed.

Lemma not_found_verdict_witness :
  (let self := Sample.host_packer true
                 (Sample.host_params ["foo"; "aura"] "present" None) in
   run Sample.host_os self []
   = (ExitJson (bool_decide (["foo"] <> []))
        (Py.join "; "
           (not_none
              [Some (would_update_msg (normalized_state self) ["foo"]);
               already_present_msg (normalized_state self) [];
               Some ("could not find " +:+ Py.join ", " ["aura"])])),
      [info_cmd self "foo"; version_cmd self "foo"; info_cmd self "aura"]))
  /\
  (let self := Sample.host_packer false
                 (Sample.host_params ["aura"] "present" None) in
   run Sample.host_os self []
   = (FailJson ("could not find " +:+ Py.join ", " ["aura"]),
      [info_cmd self "aura"])).
Proof.
  cbv zeta. split.
  - refine (proj1 (not_found_verdict Sample.host_os
                     (Sample.host_packer true
                        (Sample.host_params ["foo"; "aura"] "present" None))
                     [] ["foo"] [] ["aura"]
                     ["/usr/bin/packer -Si --auronly foo";
                      "/usr/bin/expac -Q '%v' foo";
                      "/usr/bin/packer -Si --auronly aura"]
                     _ _) eq_refl).
    + vm_compute. reflexivity.
    + discriminate.
  - refine (proj2 (not_found_verdict Sample.host_os
                     (Sample.host_packer false
                        (Sample.host_params ["aura"] "present" None))
                     [] [] [] ["aura"] ["/usr/bin/packer -Si --auronly aura"]
                     _ _) eq_refl).
    + vm_compute. reflexivity.
    + discriminate.
Defined.

(** ** Identity resolution *)

Lemma login_name_from_session os self log login :
  getlogin os = Some login ->
  login_name os self log = (Return (Some login), log).
Proof. unfold login_name. by intros ->. Qed.

(** C4, as worded, fails: the session login name is root and SUDO_USER is
    alice, and the resolved identity is root. *)
Lemma session_root_ignores_SUDO_USER :
  let self := Sample.host_packer false (Sample.host_params ["foo"] "present" None) in
  getlogin Sample.root_session_os = Some "root"
  /\ environ Sample.root_session_os !! "SUDO_USER" = Some "alice"
  /\ login_name Sample.root_session_os self [] = (Return (Some "root"), [])
  /\ (login_name Sample.root_session_os self []).1 <> Return (Some "alice").
Proof.
  cbv zeta. split; [reflexivity|]. split; [vm_compute; reflexivity|].
  split; [reflexivity|]. discriminate.
Qed.

(** C4, amended. When the session login name is available it is the
    resolved identity, root included, and nothing else is consulted. Only
    when it is not (OSError) are the logname query and then LOGNAME tried, in
    that order; what they resolve to is kept unless it is root or nothing, in
    which case SUDO_USER, when set, is the resolved identity. *)
Theorem login_name_resolution (os : Os) (self : Packer) (log : Log) :
  (forall login,
     getlogin os = Some login ->
     login_name os self log = (Return (Some login), log))
  /\
  (getlogin os = None ->
   exists r log' res,
     fallback_login os self log r log'
     /\ login_name os self log = (Return res, log')
     /\ (r <> None -> r <> Some "root" -> res = r)
     /\ (r = None \/ r = Some "root" ->
         forall u, environ os !! "SUDO_USER" = Some u -> res = Some u)
     /\ (r = None \/ r = Some "root" ->
         environ os !! "SUDO_USER" = None -> res = r)).
Proof.
  split; [intros login; apply login_name_from_session|].
  intros Hos. unfold login_name. rewrite Hos.
  set (sudo r := match r with
                 | None => from_option Some r (environ os !! "SUDO_USER")
                 | Some l =>
                     if String.eqb l "root"
                     then from_option Some r (environ os !! "SUDO_USER")
                     else r
                 end).
  assert (Hsudo : forall r,
             (r <> None -> r <> Some "root" -> sudo r = r)
             /\ (r = None \/ r = Some "root" ->
                 forall u, environ os !! "SUDO_USER" = Some u -> sudo r = Some u)
             /\ (r = None \/ r = Some "root" ->
                 environ os !! "SUDO_USER" = None -> sudo r = r)).
  { intros [l|]; unfold sudo.
    - destruct (String.eqb_spec l "root") as [->|Hl].
      + split; [done|]. split; intros _; [by intros u ->|by intros ->].
      + split; [done|]. split; (intros [|[=]]; done).
    - split; [done|]. split; intros _; [by intros u ->|by intros ->]. }
  destruct (get_bin_path (module self) "logname") as [[|c p]|] eqn:Hbin.
  - exists (environ os !! "LOGNAME"), log, (sudo (environ os !! "LOGNAME")).
    split; [by apply fallback_env_no_query; rewrite Hbin|].
    split; [|apply Hsudo]. unfold bind. simpl.
    by destruct (environ os !! "LOGNAME").
  - cbn [Py.truthy Py.str_of_opt]. unfold bind at 1 2, run_command.
    destruct (Z.eqb_spec (rc (answer (module self) log (String c p))) 0)
      as [Hrc|Hrc]; cbn [andb].
    + destruct (String.eqb_spec
                  (stdout (answer (module self) log (String c p))) EmptyString)
        as [Hout|Hout]; cbn [negb].
      * exists (environ os !! "LOGNAME"), (log ++ [String c p]),
          (sudo (environ os !! "LOGNAME")).
        split; [eapply fallback_env_after_query; eauto|].
        split; [|apply Hsudo]. simpl. by destruct (environ os !! "LOGNAME").
      * destruct (Py.splitlines (stdout (answer (module self) log (String c p))))
          as [|l ls] eqn:Hsplit; [by apply splitlines_nonempty in Hout|].
        exists (Some (Py.strip l)), (log ++ [String c p]), (sudo (Some (Py.strip l))).
        split; [eapply fallback_logname; eauto|].
        split; [done|apply Hsudo].
    + exists (environ os !! "LOGNAME"), (log ++ [String c p]),
        (sudo (environ os !! "LOGNAME")).
      split; [eapply fallback_env_after_query; eauto|].
      split; [|apply Hsudo]. simpl. by destruct (environ os !! "LOGNAME").
  - exists (environ os !! "LOGNAME"), log, (sudo (environ os !! "LOGNAME")).
    split; [by apply fallback_env_no_query; rewrite Hbin|].
    split; [|apply Hsudo]. unfold bind. simpl.
    by destruct (environ os !! "LOGNAME").
Qed.

Lemma login_name_resolution_witness :
  let self := Sample.host_packer false (Sample.host_params ["foo"] "present" None) in
  login_name Sample.root_session_os self [] = (Return (Some "root"), [])
  /\ exists r log' res,
       fallback_login Sample.host_os self [] r log'
       /\ login_name Sample.host_os self [] = (Return res, log')
       /\ (r <> None -> r <> Some "root" -> res = r)
       /\ (r = None \/ r = Some "root" ->
           forall u, environ Sample.host_os !! "SUDO_USER" = Some u -> res = Some u)
       /\ (r = None \/ r = Some "root" ->
           environ Sample.host_os !! "SUDO_USER" = None -> res = r).
Proof.
  cbv zeta. split.
  - apply (proj1 (login_name_resolution Sample.root_session_os
                    (Sample.host_packer false
                       (Sample.host_params ["foo"] "present" None)) [])).
    reflexivity.
  - apply (proj2 (login_name_resolution Sample.host_os
                    (Sample.host_packer false
                       (Sample.host_params ["foo"] "present" None)) [])).
    reflexivity.
Defined.

(** ** The executor *)

(** Identity resolution always returns, having run at most the logname
    query. *)
Lemma login_name_returns os self log :
  exists login log1,
    login_name os self log = (Return login, log1)
    /\ (log1 = log
        \/ exists p,
             log1 = log ++ [p] /\ get_bin_path (module self) "logname" = Some p).
Proof.
  unfold login_name. destruct (getlogin os) as [login|]; [by eauto|].
  destruct (get_bin_path (module self) "logname") as [[|c p]|]; simpl;
    [unfold bind; simpl; by eauto| |unfold bind; simpl; by eauto].
  unfold bind, run_command.
  destruct (rc (answer (module self) log (String c p)) =? 0); simpl;
    [|by eauto 10].
  destruct (String.eqb_spec
              (stdout (answer (module self) log (String c p))) EmptyString)
    as [Hout|Hout]; simpl; [by eauto 10|].
  apply splitlines_nonempty in Hout.
  destruct (Py.splitlines _); [done|]. simpl. eauto 10.
Qed.

Lemma install_loop_fail self base login sw name post n0 log :
  rc (answer (module self) log (install_cmd base name)) <> 0 ->
  install_loop self base login sw (name :: post) n0 log
  = (FailJson
       (install_failure_msg login sw name
          (stderr (answer (module self) log (install_cmd base name)))),
     log ++ [install_cmd base name]).
Proof.
  intros Hrc. cbn [install_loop]. unfold bind, run_command.
  apply Z.eqb_neq in Hrc. by rewrite Hrc.
Qed.

Lemma install_loop_ok self base login sw pkgs :
  forall n0 log,
    (forall i x,
       pkgs !! i = Some x ->
       rc (answer (module self)
             (log ++ map (install_cmd base) (take i pkgs))
             (install_cmd base x)) = 0) ->
    install_loop self base login sw pkgs n0 log
    = (Return (n0 + length pkgs)%nat, log ++ map (install_cmd base) pkgs).
Proof.
  induction pkgs as [|name pkgs IH]; intros n0 log Hok.
  - simpl. by rewrite Nat.add_0_r, app_nil_r.
  - cbn [install_loop]. unfold bind, run_command.
    pose proof (Hok 0%nat name eq_refl) as H0. simpl in H0.
    rewrite app_nil_r in H0. rewrite H0. simpl.
    rewrite IH.
    + f_equal; [f_equal; lia|by rewrite <- app_assoc].
    + intros i x Hx. pose proof (Hok (S i) x Hx) as Hi. simpl in Hi.
      by rewrite <- app_assoc.
Qed.

Lemma install_loop_app self base login sw xs :
  forall ys n0 log,
    install_loop self base login sw (xs ++ ys) n0 log
    = bind (install_loop self base login sw xs n0)
        (fun n => install_loop self base login sw ys n) log.
Proof.
  induction xs as [|name xs IH]; intros ys n0 log; [reflexivity|].
  cbn [app install_loop]. unfold bind in *. unfold run_command.
  destruct (negb _); [reflexivity|]. apply IH.
Qed.

(** C7. With upgrade requested, once the login name and the command prefix
    are resolved, the first command of the executor is the bulk upgrade. A
    non-zero exit ends the run in [fail_json] with the upgrade as the last
    command run; a zero exit with no package to install ends it in
    [exit_json] with changed true and the message of a bulk upgrade; with
    packages to install, the per-package loop starts from the log that
    already holds the upgrade. A run outside check mode with upgrade
    requested and no names is this executor call. *)
Theorem bulk_upgrade_runs_first (os : Os) (self : Packer)
    (pkgs : list string) (log log1 : Log) (login : option string)
    (base : string) :
  Py.truthy_bool (should_upgrade self) = true ->
  login_name os self log = (Return login, log1) ->
  base_cmd self login (switched_user os login) log1 = (Return base, log1) ->
  (rc (answer (module self) log1 (upgrade_cmd base)) <> 0 ->
   install_packages os self (Some pkgs) log
   = (FailJson
        ("failed to upgrade packages: "
         +:+ stderr (answer (module self) log1 (upgrade_cmd base))),
      log1 ++ [upgrade_cmd base]))
  /\
  (rc (answer (module self) log1 (upgrade_cmd base)) = 0 ->
   pkgs = [] ->
   install_packages os self (Some pkgs) log
   = (ExitJson true "upgraded AUR packages", log1 ++ [upgrade_cmd base]))
  /\
  (rc (answer (module self) log1 (upgrade_cmd base)) = 0 ->
   pkgs <> [] ->
   install_packages os self (Some pkgs) log
   = bind (install_loop self base login (switched_user os login) pkgs 0)
       (fun total =>
          exit_json (Nat.leb 1 total)
            ("installed " +:+ Py.str_of_nat total +:+ " package(s)"))
       (log1 ++ [upgrade_cmd base]))
  /\
  (log1 = log
   \/ exists p,
        log1 = log ++ [p] /\ get_bin_path (module self) "logname" = Some p)
  /\
  (check_mode (module self) = false ->
   default [] (param_name (params (module self))) = [] ->
   run os self log = install_packages os self (Some []) log).
Proof.
  intros Hup Hlogin Hbase.
  assert (Hstart :
            install_packages os self (Some pkgs) log
            = bind (upgrade_step self base pkgs)
                (fun _ =>
                   bind (install_loop self base login
                           (switched_user os login) pkgs 0)
                     (fun total =>
                        exit_json (Nat.leb 1 total)
                          ("installed " +:+ Py.str_of_nat total
                           +:+ " package(s)"))) log1).
  { unfold install_packages. cbn [default].
    rewrite (bind_step _ _ _ _ _ Hlogin). by rewrite (bind_step _ _ _ _ _ Hbase). }
  rewrite Hstart. unfold upgrade_step. rewrite Hup.
  split; [|split; [|split; [|split]]].
  - intros Hrc. apply Z.eqb_neq in Hrc. unfold bind, run_command.
    by rewrite Hrc.
  - intros Hrc ->. unfold bind, run_command. by rewrite Hrc.
  - intros Hrc Hne. unfold bind, run_command. rewrite Hrc. by destruct pkgs.
  - destruct (login_name_returns os self log) as (l & l1 & Hl & Hlog).
    rewrite Hl in Hlogin. by injection Hlogin as <- <-.
  - intros Hcheck Hnames. unfold run. rewrite Hnames, Hcheck.
    unfold check_packages. cbn [check_packages_loop]. unfold bind at 1, ret.
    cbn [length Nat.leb negb andb]. by rewrite Hup.
Qed.

Lemma bulk_upgrade_runs_first_witness :
  (let self := Sample.host_packer false
                 (Sample.host_params [] "present" (Some true)) in
   install_packages Sample.host_os self (Some []) []
   = (ExitJson true "upgraded AUR packages",
      ["/usr/bin/sudo -u alice /usr/bin/packer --auronly --noconfirm --noedit -Syu"])
   /\ run Sample.host_os self []
      = install_packages Sample.host_os self (Some []) [])
  /\
  (let self := Sample.host_packer false
                 (Sample.host_params ["foo"] "present" (Some true)) in
   install_packages Sample.alice_os self (Some ["foo"]) []
   = (FailJson "failed to upgrade packages: error: target not found",
      ["/usr/bin/packer --auronly --noconfirm --noedit -Syu"])).
Proof.
  cbv zeta. split; [split|].
  - refine (proj1 (proj2 (bulk_upgrade_runs_first Sample.host_os
                            (Sample.host_packer false
                               (Sample.host_params [] "present" (Some true)))
                            [] [] [] (Some "alice")
                            "/usr/bin/sudo -u alice /usr/bin/packer --auronly --noconfirm --noedit"
                            eq_refl _ _)) _ eq_refl);
      vm_compute; reflexivity.
  - refine (proj2 (proj2 (proj2 (proj2
              (bulk_upgrade_runs_first Sample.host_os
                 (Sample.host_packer false
                    (Sample.host_params [] "present" (Some true)))
                 [] [] [] (Some "alice")
                 "/usr/bin/sudo -u alice /usr/bin/packer --auronly --noconfirm --noedit"
                 eq_refl _ _)))) eq_refl eq_refl);
      vm_compute; reflexivity.
  - refine (proj1 (bulk_upgrade_runs_first Sample.alice_os
                     (Sample.host_packer false
                        (Sample.host_params ["foo"] "present" (Some true)))
                     ["foo"] [] [] (Some "alice")
                     "/usr/bin/packer --auronly --noconfirm --noedit"
                     eq_refl _ _) _).
    + vm_compute. reflexivity.
    + vm_compute. reflexivity.
    + vm_compute. discriminate.
Defined.

(** C8. After the login name, the command prefix and the bulk step, the
    installs run one per name in the order of the list. If the names before
    one succeed and that one exits non-zero, the run ends in [fail_json]; the
    log ends with the failed install, so no later name is attempted; the
    message names the package and carries the hint about passwordless sudo
    exactly when no user switch was made. If all succeed, every name was
    installed in order and the run reports their number. *)
Theorem install_failure_is_fatal (os : Os) (self : Packer)
    (pkgs : list string) (log log1 log2 : Log) (login : option string)
    (base : string) :
  login_name os self log = (Return login, log1) ->
  base_cmd self login (switched_user os login) log1 = (Return base, log1) ->
  upgrade_step self base pkgs log1 = (Return tt, log2) ->
  (forall pre name post,
     pkgs = pre ++ name :: post ->
     (forall i x,
        pre !! i = Some x ->
        rc (answer (module self)
              (log2 ++ map (install_cmd base) (take i pre))
              (install_cmd base x)) = 0) ->
     rc (answer (module self) (log2 ++ map (install_cmd base) pre)
           (install_cmd base name)) <> 0 ->
     exists msg,
       install_packages os self (Some pkgs) log
       = (FailJson msg,
          log2 ++ map (install_cmd base) pre ++ [install_cmd base name])
       /\ (switched_user os login = true ->
           msg = "failed to install package " +:+ name +:+ ": "
                 +:+ stderr (answer (module self)
                               (log2 ++ map (install_cmd base) pre)
                               (install_cmd base name)))
       /\ (switched_user os login = false ->
           msg = ("failed to install package " +:+ name +:+ ": "
                  +:+ stderr (answer (module self)
                                (log2 ++ map (install_cmd base) pre)
                                (install_cmd base name)))
                 +:+ " (do you have passwordless sudo as user "
                 +:+ Py.str_of_opt login +:+ "?)"))
  /\
  ((forall i x,
      pkgs !! i = Some x ->
      rc (answer (module self)
            (log2 ++ map (install_cmd base) (take i pkgs))
            (install_cmd base x)) = 0) ->
   install_packages os self (Some pkgs) log
   = (ExitJson (bool_decide (pkgs <> []))
        ("installed " +:+ Py.str_of_nat (length pkgs) +:+ " package(s)"),
      log2 ++ map (install_cmd base) pkgs)).
Proof.
  intros Hlogin Hbase Hup.
  assert (Hstart :
            install_packages os self (Some pkgs) log
            = bind (install_loop self base login
                      (switched_user os login) pkgs 0)
                (fun total =>
                   exit_json (Nat.leb 1 total)
                     ("installed " +:+ Py.str_of_nat total
                      +:+ " package(s)")) log2).
  { unfold install_packages. cbn [default].
    rewrite (bind_step _ _ _ _ _ Hlogin), (bind_step _ _ _ _ _ Hbase).
    by rewrite (bind_step _ _ _ _ _ Hup). }
  rewrite Hstart. split.
  - intros pre name post -> Hpre Hrc.
    eexists. split; [|split].
    + unfold bind at 1. rewrite install_loop_app.
      rewrite (bind_step _ _ _ _ _ (install_loop_ok _ _ _ _ pre 0%nat log2 Hpre)).
      rewrite (install_loop_fail _ _ _ _ _ _ _ _ Hrc).
      by rewrite <- app_assoc.
    + unfold install_failure_msg. by intros ->.
    + unfold install_failure_msg. by intros ->.
  - intros Hok. unfold bind.
    rewrite (install_loop_ok _ _ _ _ pkgs 0%nat log2 Hok).
    unfold exit_json. cbv beta iota.
    change (0 + length pkgs)%nat with (length pkgs).
    by rewrite leb_1_length.
Qed.

Lemma install_failure_is_fatal_witness :
  (let self := Sample.host_packer false
                 (Sample.host_params ["foo"; "broken"; "cower"] "latest" None) in
   exists msg,
     install_packages Sample.host_os self (Some ["foo"; "broken"; "cower"]) []
     = (FailJson msg,
        [] ++ map (install_cmd
                     "/usr/bin/sudo -u alice /usr/bin/packer --auronly --noconfirm --noedit")
                ["foo"]
        ++ [install_cmd
              "/usr/bin/sudo -u alice /usr/bin/packer --auronly --noconfirm --noedit"
              "broken"])
     /\ msg = "failed to install package broken: error: target not found")
  /\
  (let self := Sample.host_packer false
                 (Sample.host_params ["foo"] "latest" None) in
   exists msg,
     install_packages Sample.alice_os self (Some ["foo"]) []
     = (FailJson msg,
        [] ++ map (install_cmd "/usr/bin/packer --auronly --noconfirm --noedit") []
        ++ [install_cmd "/usr/bin/packer --auronly --noconfirm --noedit" "foo"])
     /\ msg = "failed to install package foo: error: target not found (do you have passwordless sudo as user alice?)")
  /\
  (let self := Sample.host_packer false
                 (Sample.host_params ["foo"; "foo"] "latest" None) in
   install_packages Sample.host_os self (Some ["foo"; "foo"]) []
   = (ExitJson (bool_decide (["foo"; "foo"] <> []))
        ("installed " +:+ Py.str_of_nat (length ["foo"; "foo"]) +:+ " package(s)"),
      [] ++ map (install_cmd
                   "/usr/bin/sudo -u alice /usr/bin/packer --auronly --noconfirm --noedit")
              ["foo"; "foo"])).
Proof.
  cbv zeta. split; [|split].
  - destruct (proj1 (install_failure_is_fatal Sample.host_os
                       (Sample.host_packer false
                          (Sample.host_params ["foo"; "broken"; "cower"] "latest" None))
                       ["foo"; "broken"; "cower"] [] [] [] (Some "alice")
                       "/usr/bin/sudo -u alice /usr/bin/packer --auronly --noconfirm --noedit"
                       eq_refl eq_refl eq_refl)
                ["foo"] "broken" ["cower"] eq_refl)
      as (msg & Hrun & Hsw & _).
    + intros i x Hx. destruct i as [|i]; [|by destruct i].
      injection Hx as <-. reflexivity.
    + vm_compute. discriminate.
    + exists msg. split; [exact Hrun|]. rewrite (Hsw eq_refl). reflexivity.
  - destruct (proj1 (install_failure_is_fatal Sample.alice_os
                       (Sample.host_packer false
                          (Sample.host_params ["foo"] "latest" None))
                       ["foo"] [] [] [] (Some "alice")
                       "/usr/bin/packer --auronly --noconfirm --noedit"
                       eq_refl eq_refl eq_refl)
                [] "foo" [] eq_refl)
      as (msg & Hrun & _ & Hsw).
    + intros i x Hx. by destruct i.
    + vm_compute. discriminate.
    + exists msg. split; [exact Hrun|]. rewrite (Hsw eq_refl). reflexivity.
  - apply (proj2 (install_failure_is_fatal Sample.host_os
                    (Sample.host_packer false
                       (Sample.host_params ["foo"; "foo"] "latest" None))
                    ["foo"; "foo"] [] [] [] (Some "alice")
                    "/usr/bin/sudo -u alice /usr/bin/packer --auronly --noconfirm --noedit"
                    eq_refl eq_refl eq_refl)).
    intros i x Hx. destruct i as [|[|i]];
      [injection Hx as <-; reflexivity|injection Hx as <-; reflexivity|
       by destruct i].
Defined.

(** ** The action plugin *)

(** C9. When the state argument is absent or removed, the plugin runs the
    pacman module, handing it the task arguments as they are, and merges what
    it returns into the result; the packer module is not run. For any other
    state, or none, it runs the packer module in the same way. *)
Theorem removal_is_delegated_to_pacman {R : Type}
    (super_run : option string -> gmap string ActionModule.Value -> gmap string R)
    (_execute_module :
       string -> ActionModule.Args -> gmap string ActionModule.Value
       -> gmap string R)
    (args : ActionModule.Args) (tmp : option string)
    (task_vars : option (gmap string ActionModule.Value)) :
  (args !! "state" = Some (ActionModule.VStr "absent")
   \/ args !! "state" = Some (ActionModule.VStr "removed") ->
   ActionModule.run super_run _execute_module args tmp task_vars
   = ActionModule.update (super_run tmp (default ∅ task_vars))
       (_execute_module "pacman" args (default ∅ task_vars)))
  /\
  (args !! "state" <> Some (ActionModule.VStr "absent") ->
   args !! "state" <> Some (ActionModule.VStr "removed") ->
   ActionModule.run super_run _execute_module args tmp task_vars
   = ActionModule.update (super_run tmp (default ∅ task_vars))
       (_execute_module "packer" args (default ∅ task_vars))).
Proof.
  unfold ActionModule.run, ActionModule.module_for,
    ActionModule.in_removal_states.
  split.
  - by intros [-> | ->].
  - intros Ha Hr. destruct (args !! "state") as [[|s| |]|]; try done.
    destruct (String.eqb_spec s "absent") as [->|_]; [done|].
    destruct (String.eqb_spec s "removed") as [->|_]; done.
Qed.

Lemma removal_is_delegated_to_pacman_witness :
  let super_run := fun (_ : option string) (_ : gmap string ActionModule.Value) =>
                     (∅ : gmap string string) in
  let exec := fun (m : string) (_ : ActionModule.Args)
                  (_ : gmap string ActionModule.Value) =>
                ({[ "invocation" := m ]} : gmap string string) in
  ActionModule.run super_run exec
    {[ "name" := ActionModule.VStr "cower,meat";
       "state" := ActionModule.VStr "absent" ]} None None
  = ActionModule.update ∅ {[ "invocation" := "pacman" ]}
  /\
  ActionModule.run super_run exec
    {[ "name" := ActionModule.VStr "cower";
       "state" := ActionModule.VStr "latest" ]} None None
  = ActionModule.update ∅ {[ "invocation" := "packer" ]}.
Proof.
  cbv zeta. split.
  - apply (proj1 (removal_is_delegated_to_pacman
                    (fun _ _ => (∅ : gmap string string))
                    (fun m _ _ => ({[ "invocation" := m ]} : gmap string string))
                    {[ "name" := ActionModule.VStr "cower,meat";
                       "state" := ActionModule.VStr "absent" ]} None None)).
    left. vm_compute. reflexivity.
  - apply (proj2 (removal_is_delegated_to_pacman
                    (fun _ _ => (∅ : gmap string string))
                    (fun m _ _ => ({[ "invocation" := m ]} : gmap string string))
                    {[ "name" := ActionModule.VStr "cower";
                       "state" := ActionModule.VStr "latest" ]} None None));
      vm_compute; discriminate.
Defined.

(** * Further properties *)

(** ** Where the pattern splits a line *)

Lemma length_lstrip_le s : (String.length (Py.lstrip s) <= String.length s)%nat.
Proof.
  induction s as [|a s IH]; simpl; [lia|].
  destruct (Py.isspace a); simpl; lia.
Qed.

Lemma substring_first_line s :
  String.substring 0 (String.length (first_line s)) s = first_line s.
Proof.
  induction s as [|a s IH]; [reflexivity|]. simpl.
  destruct (Ascii.eqb a Py.nl); simpl; [reflexivity|by rewrite IH].
Qed.

Lemma substring_lstrip s n :
  String.substring (String.length s - String.length (Py.lstrip s)) n s
  = String.substring 0 n (Py.lstrip s).
Proof.
  induction s as [|a s IH]; [reflexivity|].
  cbn [Py.lstrip]. destruct (Py.isspace a).
  - pose proof (length_lstrip_le s).
    replace (String.length (String a s) - String.length (Py.lstrip s))%nat
      with (S (String.length s - String.length (Py.lstrip s)))
      by (cbn [String.length]; lia).
    exact IH.
  - by rewrite Nat.sub_diag.
Qed.

Lemma substring_skip p t i n :
  String.substring (String.length p + i) n (p +:+ t) = String.substring i n t.
Proof. induction p as [|a p IH]; [reflexivity|exact IH]. Qed.

Lemma substring_prefix p t :
  String.substring 0 (String.length p) (p +:+ t) = p.
Proof.
  induction p as [|a p IH]; simpl; [by destruct t|by rewrite IH].
Qed.

Lemma greedy_cons c k a s pos marks :
  Re.greedy c k (String a s) pos marks
  = if Re.cmatch c a then
      match Re.greedy c k s (S pos) marks with
      | Some m => Some m
      | None => k (String a s) pos marks
      end
    else k (String a s) pos marks.
Proof. reflexivity. Qed.

(** The second group and the end of the pattern: they always match. *)
Lemma greedy_dot_to_end s pos marks :
  Re.greedy Re.Dot (Re.rmatch [Re.GClose]) s pos marks
  = Some (rev ((pos + String.length (first_line s))%nat :: marks)).
Proof.
  revert pos. induction s as [|a s IH]; intros pos.
  - simpl. by rewrite Nat.add_0_r.
  - cbn [Re.greedy first_line Re.cmatch].
    destruct (Ascii.eqb a Py.nl); cbn [negb].
    + simpl. by rewrite Nat.add_0_r.
    + rewrite IH. cbn [String.length]. by rewrite Nat.add_succ_r.
Qed.

Lemma greedy_space_then_value s pos marks :
  Re.greedy Re.Space (Re.rmatch [Re.GOpen; Re.Star Re.Dot; Re.GClose])
    s pos marks
  = Some (rev ((pos + (String.length s - String.length (Py.lstrip s))
                + String.length (first_line (Py.lstrip s)))%nat
               :: (pos + (String.length s - String.length (Py.lstrip s)))%nat
               :: marks)).
Proof.
  revert pos. induction s as [|a s IH]; intros pos.
  - simpl. by rewrite !Nat.add_0_r.
  - cbn [Re.greedy Re.cmatch Py.lstrip].
    destruct (Py.isspace a).
    + rewrite IH. pose proof (length_lstrip_le s).
      cbn [String.length].
      replace (S pos + (String.length s - String.length (Py.lstrip s)))%nat
        with (pos + (S (String.length s) - String.length (Py.lstrip s)))%nat
        by lia.
      reflexivity.
    + change (Re.rmatch [Re.GOpen; Re.Star Re.Dot; Re.GClose]
                (String a s) pos marks)
        with (Re.greedy Re.Dot (Re.rmatch [Re.GClose]) (String a s) pos
                (pos :: marks)).
      rewrite greedy_dot_to_end. by rewrite Nat.sub_diag, Nat.add_0_r.
Qed.

Lemma greedy_dot_skip k p t pos marks m :
  has_nl p = false ->
  Re.greedy Re.Dot k t (pos + String.length p)%nat marks = Some m ->
  Re.greedy Re.Dot k (p +:+ t) pos marks = Some m.
Proof.
  revert pos. induction p as [|a p IH]; intros pos Hnl Ht.
  - simpl in *. by rewrite Nat.add_0_r in Ht.
  - simpl in Hnl. apply orb_false_iff in Hnl as [Ha Hp].
    change (String a p +:+ t) with (String a (p +:+ t)).
    cbn [Re.greedy Re.cmatch]. rewrite Ha. cbn [negb].
    rewrite (IH (S pos) Hp); [done|].
    cbn [String.length] in Ht. by rewrite Nat.add_succ_r in Ht.
Qed.

(** Where the marks fall on such a line. *)
Lemma rmatch_at_last_space_colon (p : string) (w : ascii) (q : string) :
  has_nl p = false ->
  Py.isspace w = true ->
  has_space_colon (String ":" q) = false ->
  Re.rmatch split_on_colons (p +:+ String w (String ":" q)) 0%nat []
  = Some [0%nat; String.length p;
          (String.length p + 2
           + (String.length q - String.length (Py.lstrip q)))%nat;
          (String.length p + 2
           + (String.length q - String.length (Py.lstrip q))
           + String.length (first_line (Py.lstrip q)))%nat].
Proof.
  intros Hp Hw Hq.
  set (b := (String.length p + 2
             + (String.length q - String.length (Py.lstrip q)))%nat).
  unfold split_on_colons.
  change (Re.rmatch (Re.GOpen :: Re.Star Re.Dot :: ?r) ?s 0%nat [])
    with (Re.greedy Re.Dot (Re.rmatch r) s 0%nat [0%nat]).
  apply greedy_dot_skip; [exact Hp|]. cbn [Nat.add].
  assert (Hhere :
            Re.rmatch
              [Re.GClose; Re.Plus Re.Space; Re.One (Re.Lit ":");
               Re.Star Re.Space; Re.GOpen; Re.Star Re.Dot; Re.GClose]
              (String w (String ":" q)) (String.length p) [0%nat]
            = Some [0%nat; String.length p; b;
                    (b + String.length (first_line (Py.lstrip q)))%nat]).
  { cbn [Re.rmatch Re.cmatch]. rewrite Hw.
    cbn [Re.greedy Re.cmatch].
    change (Py.isspace ":") with false. cbv iota.
    change (Ascii.eqb ":" ":") with true. cbv iota.
    rewrite greedy_space_then_value. cbn [rev app]. unfold b.
    repeat f_equal; lia. }
  rewrite greedy_cons.
  rewrite (key_then_delimiter_fails _ (String ":" q) Hq).
  rewrite Hhere. by destruct (Re.cmatch Re.Dot w).
Qed.

(** X1. A line is split at its last colon that has a whitespace character
    right before it: the first group is all that precedes that whitespace
    character, the second what follows the colon, without its leading
    whitespace and up to the end of the line. *)
Theorem findall_splits_at_last_space_colon (p : string) (w : ascii)
    (q : string) :
  has_nl p = false ->
  Py.isspace w = true ->
  has_space_colon (String ":" q) = false ->
  Re.findall2 split_on_colons (p +:+ String w (String ":" q))
  = [(p, first_line (Py.lstrip q))].
Proof.
  intros Hp Hw Hq.
  unfold Re.findall2. rewrite (rmatch_at_last_space_colon p w q Hp Hw Hq).
  unfold Re.slice. f_equal. f_equal.
  - rewrite Nat.sub_0_r. apply substring_prefix.
  - set (b := (String.length p + 2
               + (String.length q - String.length (Py.lstrip q)))%nat).
    replace (b + String.length (first_line (Py.lstrip q)) - b)%nat
      with (String.length (first_line (Py.lstrip q))) by lia.
    unfold b. rewrite <- Nat.add_assoc, substring_skip.
    cbn [Nat.add String.substring].
    rewrite substring_lstrip. apply substring_first_line.
Qed.

Lemma findall_splits_at_last_space_colon_witness :
  Re.findall2 split_on_colons
    ("Description    : Organizer" +:+ String " " (String ":" " personal edition"))
  = [("Description    : Organizer", first_line (Py.lstrip " personal edition"))].
Proof.
  apply (findall_splits_at_last_space_colon
           "Description    : Organizer" " " " personal edition");
    reflexivity.
Defined.

(** ** When parsing returns a mapping *)

Lemma has_space_colon_cons a b s :
  has_space_colon (String a (String b s))
  = (Py.isspace a && Ascii.eqb b ":" || has_space_colon (String b s))%bool.
Proof. reflexivity. Qed.

Lemma last_space_colon s :
  has_space_colon s = true ->
  exists p w q,
    s = p +:+ String w (String ":" q)
    /\ Py.isspace w = true
    /\ has_space_colon (String ":" q) = false
    /\ (has_nl s = false -> has_nl p = false).
Proof.
  induction s as [|a s IH]; [done|].
  destruct (has_space_colon s) eqn:Hs.
  - intros _. destruct (IH eq_refl) as (p & w & q & -> & Hw & Hq & Hnl).
    exists (String a p), w, q. split; [done|]. split; [done|]. split; [done|].
    simpl. intros H. apply orb_false_iff in H as [-> H]. by apply Hnl.
  - destruct s as [|b s]; [done|].
    rewrite has_space_colon_cons, Hs, orb_false_r.
    intros H. apply andb_true_iff in H as [Ha Hb].
    apply Ascii.eqb_eq in Hb as ->.
    exists EmptyString, a, s. by repeat split.
Qed.

Lemma findall_with_space_colon line :
  has_nl line = false -> has_space_colon line = true ->
  exists kv, Re.findall2 split_on_colons line = [kv].
Proof.
  intros Hnl Hsc.
  destruct (last_space_colon line Hsc) as (p & w & q & -> & Hw & Hq & Hp).
  unfold Re.findall2.
  rewrite (rmatch_at_last_space_colon p w q (Hp Hnl) Hw Hq). by eexists.
Qed.

Lemma has_nl_app s t : has_nl (s +:+ t) = (has_nl s || has_nl t)%bool.
Proof.
  induction s as [|a s IH]; [reflexivity|]. simpl. by rewrite IH, orb_assoc.
Qed.

Lemma has_nl_lstrip s : has_nl s = false -> has_nl (Py.lstrip s) = false.
Proof.
  induction s as [|a s IH]; [done|]. intros H. cbn [Py.lstrip].
  destruct (Py.isspace a); [|done].
  simpl in H. apply orb_false_iff in H as [_ H]. by apply IH.
Qed.

Lemma has_nl_rstrip s : has_nl s = false -> has_nl (Py.rstrip s) = false.
Proof.
  induction s as [|a s IH]; [done|]. intros H.
  simpl in H. apply orb_false_iff in H as [Ha H]. specialize (IH H).
  cbn [Py.rstrip]. destruct (Py.rstrip s) as [|b r].
  - destruct (Py.isspace a); [done|]. simpl. by rewrite Ha.
  - cbn [has_nl] in *. by rewrite Ha.
Qed.

Lemma has_nl_strip s : has_nl s = false -> has_nl (Py.strip s) = false.
Proof. intros H. by apply has_nl_rstrip, has_nl_lstrip. Qed.

Lemma splitlines_no_nl s line :
  In line (Py.splitlines s) -> has_nl line = false.
Proof.
  revert line. induction s as [|c s IH]; intros line; [done|].
  cbn [Py.splitlines]. destruct (Ascii.eqb c Py.nl) eqn:Hc.
  - intros [<-|H]; [done|by apply IH].
  - destruct (Ascii.eqb c Py.cr) eqn:Hr.
    + destruct s as [|d s]; [by intros [<-|[]]|].
      destruct (Ascii.eqb d Py.nl) eqn:Hd.
      * intros [<-|H]; [done|]. apply IH. cbn [Py.splitlines].
        rewrite Hd. by right.
      * intros [<-|H]; [done|by apply IH].
    + destruct (Py.splitlines s) as [|l ls].
      * intros [<-|[]]. simpl. by rewrite Hc.
      * intros [<-|H].
        -- simpl. rewrite Hc. apply IH. by left.
        -- apply IH. by right.
Qed.

Lemma append_to_last_In acc x acc' r :
  append_to_last acc x = Some acc' -> In r acc' ->
  In r acc \/ exists l, In l acc /\ r = l +:+ x.
Proof.
  unfold append_to_last. destruct (rev acc) as [|l before] eqn:Hrev; [done|].
  intros [= <-] Hin. apply in_app_iff in Hin as [Hin|[<-|[]]].
  - left. apply in_rev. rewrite Hrev. right. by apply in_rev.
  - right. exists l. split; [|done]. apply in_rev. rewrite Hrev. by left.
Qed.

Lemma line_acc_step_no_nl acc line :
  has_nl line = false ->
  (forall r, In r acc -> has_nl r = false) ->
  forall r, In r (line_acc_step acc line) -> has_nl r = false.
Proof.
  intros Hline Hacc r. unfold line_acc_step.
  assert (Hnew : forall r, In r (acc ++ [Py.strip line]) -> has_nl r = false).
  { intros r' Hin. apply in_app_iff in Hin as [Hin|[<-|[]]];
      [by apply Hacc|by apply has_nl_strip]. }
  destruct (Re.match_space line); [|apply Hnew].
  destruct (append_to_last acc (" " +:+ Py.strip line)) as [acc'|] eqn:Happ;
    [|apply Hnew].
  intros Hin.
  destruct (append_to_last_In _ _ _ _ Happ Hin) as [H|(l & Hl & ->)];
    [by apply Hacc|].
  rewrite has_nl_app, (Hacc l Hl). simpl. by apply has_nl_strip.
Qed.

Lemma line_acc_no_nl stdout record :
  In record (line_acc stdout) -> has_nl record = false.
Proof.
  unfold line_acc.
  assert (H : forall lines acc,
             (forall l, In l lines -> has_nl l = false) ->
             (forall r, In r acc -> has_nl r = false) ->
             forall r, In r (foldl line_acc_step acc lines) ->
                       has_nl r = false).
  { induction lines as [|l lines IH]; intros acc Hl Hacc; [exact Hacc|].
    cbn [foldl]. apply IH; [by intros; apply Hl; right|].
    apply line_acc_step_no_nl; [by apply Hl; left|exact Hacc]. }
  apply H; [apply splitlines_no_nl|done].
Qed.

Lemma kv_pairs_ok l :
  (forall record, In record l -> record <> EmptyString ->
                  exists kv, Re.findall2 split_on_colons record = [kv]) ->
  exists kvs, kv_pairs l = Ok kvs.
Proof.
  induction l as [|line l IH]; intros H; [by eexists|].
  destruct IH as [kvs Hkvs]; [by intros; apply H; [right|]|].
  cbn [kv_pairs]. destruct (String.eqb_spec line EmptyString) as [->|Hne];
    [by eexists|].
  destruct (H line (or_introl eq_refl) Hne) as [kv ->]. rewrite Hkvs.
  by eexists.
Qed.

(** X2. When the metadata query exits zero, [package_info] returns a mapping
    exactly when every non-empty record (entry of [line_acc]) holds a colon
    preceded by whitespace; otherwise it raises IndexError, and it never
    raises anything else. *)
Theorem package_info_returns_iff (self : Packer) (name : string) (log : Log) :
  rc (answer (module self) log (info_cmd self name)) = 0 ->
  ((exists d,
      package_info self name log = (Return (Some d), log ++ [info_cmd self name]))
   <->
   (forall record,
      In record (line_acc (stdout (answer (module self) log (info_cmd self name)))) ->
      record <> EmptyString -> has_space_colon record = true))
  /\
  ((exists d,
      package_info self name log = (Return (Some d), log ++ [info_cmd self name]))
   \/ package_info self name log = (Raise IndexError, log ++ [info_cmd self name])).
Proof.
  intros Hrc. unfold package_info, bind, run_command. rewrite Hrc.
  cbn [Z.eqb negb]. unfold parse_info.
  set (records := line_acc (stdout (answer (module self) log (info_cmd self name)))).
  destruct (kv_pairs records) as [kvs|e] eqn:Hkv; cbn [lift ret raise].
  - split; [|left; by eexists]. split; [|by eexists].
    intros _ record Hin Hne.
    destruct (has_space_colon record) eqn:Hsc; [done|].
    by rewrite (kv_pairs_bad_record _ record Hin Hne
                  (findall_without_space_colon _ Hsc)) in Hkv.
  - rewrite (kv_pairs_only_IndexError _ _ Hkv). split; [|by right].
    split; [by intros [d [=]]|]. intros Hall. exfalso.
    destruct (kv_pairs_ok records) as [kvs Hok]; [|congruence].
    intros record Hin Hne. apply findall_with_space_colon;
      [by eapply line_acc_no_nl|by apply Hall].
Qed.

Lemma package_info_returns_iff_witness :
  let self := Sample.host_packer true (Sample.host_params ["deps"] "present" None) in
  exists d, package_info self "deps" [] = (Return (Some d), [] ++ [info_cmd self "deps"]).
Proof.
  cbv zeta.
  apply (proj1 (package_info_returns_iff
                  (Sample.host_packer true
                     (Sample.host_params ["deps"] "present" None))
                  "deps" [] eq_refl)).
  intros record Hin Hne. vm_compute in Hin.
  destruct Hin as [<-|[<-|[]]]; reflexivity.
Defined.

(** ** What the mapping holds *)

Lemma dict_lookup_In pairs :
  forall k v, dict pairs !! k = Some v -> In (k, v) pairs.
Proof.
  unfold dict.
  assert (H : forall l (m : gmap string string) k v,
             foldl (fun d kv => <[kv.1 := kv.2]> d) m l !! k = Some v ->
             m !! k = Some v \/ In (k, v) l).
  { induction l as [|[k0 v0] l IH]; intros m k v; cbn [foldl]; [by left|].
    intros Hl. apply IH in Hl as [Hl|Hl]; [|by right; right].
    apply lookup_insert_Some in Hl as [[<- <-]|[_ Hl]];
      [right; by left|by left]. }
  intros k v Hl. apply H in Hl as [Hl|Hl]; [|done].
  by rewrite lookup_empty in Hl.
Qed.

Lemma isspace_lower_char c : Py.isspace (Py.lower_char c) = Py.isspace c.
Proof. by destruct c as [[] [] [] [] [] [] [] []]. Qed.

Lemma lower_char_not_upper c :
  (Nat.leb 65 (nat_of_ascii (Py.lower_char c))
   && Nat.leb (nat_of_ascii (Py.lower_char c)) 90)%bool = false.
Proof. by destruct c as [[] [] [] [] [] [] [] []]. Qed.

Lemma has_space_lower s : has_space (Py.lower s) = has_space s.
Proof.
  induction s as [|a s IH]; [done|]. simpl.
  by rewrite isspace_lower_char, IH.
Qed.

Lemma has_upper_lower s : has_upper (Py.lower s) = false.
Proof.
  induction s as [|a s IH]; [done|]. cbn [Py.lower has_upper].
  by rewrite lower_char_not_upper, IH.
Qed.

Lemma has_space_sub_spaces s : has_space (Re.sub_spaces s) = false.
Proof.
  induction s as [|a s IH]; [done|]. cbn [Re.sub_spaces].
  destruct (Py.isspace a) eqn:Ha.
  - destruct s as [|d s]; [done|].
    destruct (Py.isspace d); [exact IH|]. cbn [has_space]. by rewrite IH.
  - cbn [has_space]. by rewrite Ha, IH.
Qed.

Lemma lstrip_head s :
  match Py.lstrip s with
  | String a _ => Py.isspace a = false
  | EmptyString => True
  end.
Proof.
  induction s as [|a s IH]; [done|]. cbn [Py.lstrip].
  by destruct (Py.isspace a) eqn:Ha.
Qed.

Lemma rstrip_rstrip s : Py.rstrip (Py.rstrip s) = Py.rstrip s.
Proof.
  induction s as [|a s IH]; [done|]. cbn [Py.rstrip].
  destruct (Py.rstrip s) as [|b r] eqn:Hr.
  - destruct (Py.isspace a) eqn:Ha; [done|]. simpl. by rewrite Ha.
  - cbn [Py.rstrip]. cbn [Py.rstrip] in IH. by rewrite IH.
Qed.

Lemma lstrip_rstrip_of_stripped s :
  match s with String a _ => Py.isspace a = false | EmptyString => True end ->
  Py.lstrip (Py.rstrip s) = Py.rstrip s.
Proof.
  destruct s as [|a s]; [done|]. intros Ha. cbn [Py.rstrip].
  destruct (Py.rstrip s); rewrite ?Ha; cbn [Py.lstrip]; by rewrite Ha.
Qed.

Lemma strip_strip s : Py.strip (Py.strip s) = Py.strip s.
Proof.
  unfold Py.strip.
  rewrite (lstrip_rstrip_of_stripped _ (lstrip_head s)).
  apply rstrip_rstrip.
Qed.

(** X3. Every key of the mapping [package_info] returns is free of
    whitespace and of ASCII capitals, and every value is free of leading and
    trailing whitespace (stripping it again changes nothing). *)
Theorem package_info_keys_normalized (self : Packer) (name : string)
    (log log' : Log) (d : gmap string string) (k v : string) :
  package_info self name log = (Return (Some d), log') ->
  d !! k = Some v ->
  has_space k = false /\ has_upper k = false /\ Py.strip v = v.
Proof.
  unfold package_info, bind, run_command.
  destruct (negb _); [done|]. unfold parse_info.
  destruct (kv_pairs _) as [kvs|e]; [|done]. cbn [lift ret].
  intros [= <- _] Hl. apply dict_lookup_In in Hl.
  apply in_map_iff in Hl as ([k0 v0] & [= <- <-] & _).
  unfold normalize_key. cbn [fst snd].
  by rewrite has_space_lower, has_space_sub_spaces, has_upper_lower,
    strip_strip.
Qed.

Lemma package_info_keys_normalized_witness :
  has_space "version" = false /\ has_upper "version" = false
  /\ Py.strip "2.0" = "2.0".
Proof.
  assert (H : exists d,
             package_info
               (Sample.host_packer true
                  (Sample.host_params ["cower"] "latest" None)) "cower" []
             = (Return (Some d), ["/usr/bin/packer -Si --auronly cower"])
             /\ d !! "version" = Some "2.0").
  { eexists. split; vm_compute; reflexivity. }
  destruct H as (d & Hd & Hv).
  exact (package_info_keys_normalized _ _ _ _ _ _ _ Hd Hv).
Defined.

(** ** How many records the output makes *)

Lemma append_to_last_length acc x :
  acc <> [] ->
  exists acc', append_to_last acc x = Some acc' /\ length acc' = length acc.
Proof.
  intros Hne. unfold append_to_last.
  destruct (rev acc) as [|l before] eqn:Hrev.
  - apply (f_equal (@rev string)) in Hrev. rewrite rev_involutive in Hrev.
    done.
  - eexists. split; [done|].
    rewrite length_app, length_rev. cbn [length].
    apply (f_equal length) in Hrev. rewrite length_rev in Hrev.
    cbn [length] in Hrev. lia.
Qed.

Lemma line_acc_step_length acc line :
  acc <> [] ->
  line_acc_step acc line <> []
  /\ length (line_acc_step acc line)
     = (length acc + if Re.match_space line then 0 else 1)%nat.
Proof.
  intros Hne. unfold line_acc_step. destruct (Re.match_space line).
  - destruct (append_to_last_length acc (" " +:+ Py.strip line) Hne)
      as (acc' & -> & Hlen).
    split; [|lia]. intros ->. by destruct acc.
  - split; [by destruct acc|]. rewrite length_app. by cbn [length].
Qed.

Lemma line_acc_fold_length lines :
  forall acc,
    acc <> [] ->
    length (foldl line_acc_step acc lines)
    = (length acc
       + length (List.filter (fun l => negb (Re.match_space l)) lines))%nat.
Proof.
  induction lines as [|l lines IH]; intros acc Hne; cbn [foldl List.filter].
  - cbn [length]. lia.
  - destruct (line_acc_step_length acc l Hne) as [Hne' Hlen].
    rewrite (IH _ Hne'), Hlen.
    destruct (Re.match_space l); cbn [negb length]; lia.
Qed.

(** X4. The parser makes one record per output line that does not begin
    with whitespace, plus one when the very first line does: a continuation
    line never makes a record of its own unless there is none to continue. *)
Theorem line_acc_length (stdout : string) :
  length (line_acc stdout) = record_openers (Py.splitlines stdout).
Proof.
  unfold line_acc, record_openers.
  destruct (Py.splitlines stdout) as [|l lines]; [reflexivity|].
  cbn [foldl List.filter].
  assert (Hfirst : line_acc_step [] l = [Py.strip l]).
  { unfold line_acc_step. by destruct (Re.match_space l). }
  rewrite Hfirst, line_acc_fold_length by done.
  destruct (Re.match_space l); cbn [negb length]; lia.
Qed.

(** ** Identity resolution never fails *)

(** X5. [login_name] always returns: the index into the lines of the
    logname output is guarded by the test for empty output. It runs at most
    one command, the logname executable, and none when the session login name
    is available. The identity is [None] only if the session login name is
    unavailable and neither LOGNAME nor SUDO_USER is set. *)
Theorem login_name_always_returns (os : Os) (self : Packer) (log : Log) :
  exists login log1,
    login_name os self log = (Return login, log1)
    /\ (log1 = log
        \/ (getlogin os = None
            /\ exists p,
                 log1 = log ++ [p]
                 /\ get_bin_path (module self) "logname" = Some p))
    /\ (login = None ->
        getlogin os = None
        /\ environ os !! "LOGNAME" = None
        /\ environ os !! "SUDO_USER" = None).
Proof.
  unfold login_name. destruct (getlogin os) as [login|] eqn:Hos.
  - exists (Some login), log. split; [done|]. split; [by left|done].
  - set (finish := fun r : option string =>
                     match
                       match r with
                       | None => environ os !! "LOGNAME"
                       | Some _ => r
                       end
                     with
                     | None =>
                         from_option Some
                           match r with
                           | None => environ os !! "LOGNAME"
                           | Some _ => r
                           end (environ os !! "SUDO_USER")
                     | Some l =>
                         if String.eqb l "root"
                         then from_option Some
                                match r with
                                | None => environ os !! "LOGNAME"
                                | Some _ => r
                                end (environ os !! "SUDO_USER")
                         else match r with
                              | None => environ os !! "LOGNAME"
                              | Some _ => r
                              end
                     end).
    assert (Hfin : forall r,
               finish r = None ->
               None = (None : option string)
               /\ environ os !! "LOGNAME" = None
               /\ environ os !! "SUDO_USER" = None).
    { intros [l|]; unfold finish.
      - destruct (String.eqb l "root"); [|done].
        by destruct (environ os !! "SUDO_USER").
      - destruct (environ os !! "LOGNAME") as [l|].
        + destruct (String.eqb l "root"); [|done].
          by destruct (environ os !! "SUDO_USER").
        + by destruct (environ os !! "SUDO_USER"). }
    destruct (get_bin_path (module self) "logname") as [[|c p]|] eqn:Hbin;
      cbn [Py.truthy Py.str_of_opt].
    + exists (finish None), log. split; [done|]. split; [by left|apply Hfin].
    + unfold bind at 1 2, run_command.
      destruct (rc (answer (module self) log (String c p)) =? 0); cbn [andb].
      * destruct (String.eqb_spec
                    (stdout (answer (module self) log (String c p))) EmptyString)
          as [Hout|Hout]; cbn [negb].
        -- exists (finish None), (log ++ [String c p]).
           split; [done|]. split; [right; by eauto|apply Hfin].
        -- apply splitlines_nonempty in Hout.
           destruct (Py.splitlines _) as [|l ls]; [done|].
           exists (finish (Some (Py.strip l))), (log ++ [String c p]).
           split; [done|]. split; [right; by eauto|apply Hfin].
      * exists (finish None), (log ++ [String c p]).
        split; [done|]. split; [right; by eauto|apply Hfin].
    + exists (finish None), log. split; [done|]. split; [by left|apply Hfin].
Qed.

(** ** Classification on a host that answers the same every time *)

Lemma package_info_stateless self name log :
  stateless (module self) ->
  package_info self name log
  = (if found self name then
       match parse_info (stdout (answer (module self) [] (info_cmd self name))) with
       | Ok d => Return (Some d)
       | Except e => Raise e
       end
     else Return None,
     log ++ [info_cmd self name]).
Proof.
  intros Hst. unfold package_info, bind, run_command, found.
  rewrite (Hst log []).
  destruct (rc _ =? 0); [|done]. cbn [negb].
  by destruct (parse_info _).
Qed.

Lemma package_installed_version_stateless self name log :
  stateless (module self) ->
  package_installed_version self name log
  = (if installed self name then
       match local_version self name with
       | Some v => Return (Some v)
       | None => Raise IndexError
       end
     else Return None,
     log ++ [version_cmd self name]).
Proof.
  intros Hst. unfold package_installed_version, bind, run_command, installed,
    local_version.
  rewrite (Hst log []).
  destruct (rc _ =? 0); [|done]. cbn [negb].
  by destruct (Py.splitlines _).
Qed.

Lemma check_packages_loop_stateless (self : Packer)
    (should_update : option bool) (pkgs : list string) :
  stateless (module self) ->
  (forall name, In name pkgs -> found self name = true ->
     exists d,
       parse_info (stdout (answer (module self) [] (info_cmd self name))) = Ok d) ->
  (forall name, In name pkgs -> found self name = true ->
     installed self name = true ->
     stdout (answer (module self) [] (version_cmd self name)) <> EmptyString) ->
  (Py.truthy_bool should_update = true ->
   forall name, In name pkgs -> found self name = true ->
     installed self name = true -> remote_version self name <> None) ->
  forall w a n log,
    check_packages_loop self should_update pkgs w a n log
    = (Return
         (w ++ List.filter
                 (fun x => found self x && negb (satisfied self should_update x))
                 pkgs,
          a ++ List.filter
                 (fun x => found self x && satisfied self should_update x) pkgs,
          n ++ List.filter (fun x => negb (found self x)) pkgs),
       log ++ concat (map (queries self) pkgs)).
Proof.
  intros Hst. induction pkgs as [|name pkgs IH]; intros Hinfo Hver Hkey w a n log.
  - cbn. by rewrite !app_nil_r.
  - specialize (IH (fun x Hx => Hinfo x (or_intror Hx))
                   (fun x Hx => Hver x (or_intror Hx))
                   (fun Ht x Hx => Hkey Ht x (or_intror Hx))).
    cbn [check_packages_loop map concat List.filter]. unfold bind at 1.
    rewrite (package_info_stateless _ _ _ Hst). unfold queries at 1.
    destruct (found self name) eqn:Hfound; cbn [negb andb].
    + destruct (Hinfo name (or_introl eq_refl) Hfound) as [d Hd]. rewrite Hd.
      unfold bind at 1.
      rewrite (package_installed_version_stateless _ _ _ Hst).
      destruct (installed self name) eqn:Hinst.
      * pose proof (splitlines_nonempty _
                      (Hver name (or_introl eq_refl) Hfound Hinst)) as Hl.
        unfold local_version at 1.
        destruct (Py.splitlines
                    (stdout (answer (module self) [] (version_cmd self name))))
          as [|l ls] eqn:Hsplit; [done|].
        destruct (Py.truthy_bool should_update) eqn:Hsu.
        -- pose proof (Hkey eq_refl name (or_introl eq_refl) Hfound Hinst) as Hk.
           unfold remote_version in Hk. rewrite Hd in Hk.
           destruct (d !! "version") as [r|] eqn:Hr; [|done].
           destruct (String.eqb (Py.strip l) r) eqn:He.
           ++ assert (Hsat : satisfied self should_update name = true).
              { unfold satisfied, up_to_date, remote_version, local_version.
                by rewrite Hsu, Hinst, Hd, Hsplit, Hr, He. }
              rewrite Hsat. cbn [negb].
              rewrite IH, <- !app_assoc. reflexivity.
           ++ assert (Hsat : satisfied self should_update name = false).
              { unfold satisfied, up_to_date, remote_version, local_version.
                by rewrite Hsu, Hinst, Hd, Hsplit, Hr, He. }
              rewrite Hsat. cbn [negb].
              rewrite IH, <- !app_assoc. reflexivity.
        -- assert (Hsat : satisfied self should_update name = true).
           { unfold satisfied. by rewrite Hsu, Hinst. }
           rewrite Hsat. cbn [negb].
           rewrite IH, <- !app_assoc. reflexivity.
      * assert (Hsat : satisfied self should_update name = false).
        { unfold satisfied, up_to_date. rewrite Hinst.
          by destruct (Py.truthy_bool should_update). }
        rewrite Hsat. cbn [negb].
        destruct (Py.truthy_bool should_update);
          rewrite IH, <- !app_assoc; reflexivity.
    + rewrite IH, <- !app_assoc. reflexivity.
Qed.

(** X6. On a host that answers the same every time and whose answers are
    well formed, the loop of [check_packages] returns the three buckets as
    sub-lists of the request, in request order: not_found holds the names
    whose metadata query fails; of the others, already_present holds the
    installed ones (when the flag is true: those installed in exactly the
    version the metadata names) and would_change the rest. The log grows by
    the metadata query of every name, followed for a found name by its
    installed-version query; and classifying again afterwards returns the
    same buckets. *)
Theorem classification_on_stateless_host (self : Packer)
    (should_update : option bool) (pkgs : list string) (log : Log) :
  stateless (module self) ->
  (forall name, In name pkgs -> found self name = true ->
     exists d,
       parse_info (stdout (answer (module self) [] (info_cmd self name))) = Ok d) ->
  (forall name, In name pkgs -> found self name = true ->
     installed self name = true ->
     stdout (answer (module self) [] (version_cmd self name)) <> EmptyString) ->
  (Py.truthy_bool should_update = true ->
   forall name, In name pkgs -> found self name = true ->
     installed self name = true -> remote_version self name <> None) ->
  let buckets :=
    (List.filter
       (fun x => found self x && negb (satisfied self should_update x)) pkgs,
     List.filter (fun x => found self x && satisfied self should_update x) pkgs,
     List.filter (fun x => negb (found self x)) pkgs) in
  let log' := log ++ concat (map (queries self) pkgs) in
  check_packages_loop self should_update pkgs [] [] [] log
  = (Return buckets, log')
  /\ check_packages_loop self should_update pkgs [] [] [] log'
     = (Return buckets, log' ++ concat (map (queries self) pkgs)).
Proof.
  intros Hst Hinfo Hver Hkey buckets log'.
  pose proof (check_packages_loop_stateless self should_update pkgs
                Hst Hinfo Hver Hkey [] [] []) as H.
  split.
  - rewrite (H log). reflexivity.
  - rewrite (H log'). reflexivity.
Qed.

Lemma classification_on_stateless_host_witness :
  let self := Sample.host_packer true
                (Sample.host_params ["cower"; "aura"; "foo"] "latest" None) in
  check_packages_loop self (Some true) ["cower"; "aura"; "foo"] [] [] [] []
  = (Return (["cower"; "foo"], [], ["aura"]),
     [info_cmd self "cower"; version_cmd self "cower"; info_cmd self "aura";
      info_cmd self "foo"; version_cmd self "foo"]).
Proof.
  cbv zeta.
  refine (eq_trans
            (proj1 (classification_on_stateless_host
                      (Sample.host_packer true
                         (Sample.host_params ["cower"; "aura"; "foo"] "latest" None))
                      (Some true) ["cower"; "aura"; "foo"] [] _ _ _ _)) _).
  - intros log log' cmd. reflexivity.
  - intros name [<-|[<-|[<-|[]]]] Hf.
    + eexists. vm_compute. reflexivity.
    + vm_compute in Hf. discriminate.
    + eexists. vm_compute. reflexivity.
  - intros name [<-|[<-|[<-|[]]]] Hf Hi; vm_compute in Hi; discriminate.
  - intros _ name [<-|[<-|[<-|[]]]] Hf Hi; vm_compute in Hi; discriminate.
  - vm_compute. reflexivity.
Defined.

(** ** What the executor runs *)

Lemma install_loop_shape self base login sw pkgs :
  forall n0 log,
    exists k,
      (k <= length pkgs)%nat
      /\ (install_loop self base login sw pkgs n0 log).2
         = log ++ map (install_cmd base) (take k pkgs)
      /\ (((install_loop self base login sw pkgs n0 log).1
           = Return (n0 + length pkgs)%nat /\ k = length pkgs)
          \/ exists msg,
               (install_loop self base login sw pkgs n0 log).1 = FailJson msg).
Proof.
  induction pkgs as [|name pkgs IH]; intros n0 log.
  - exists 0%nat. cbn [install_loop ret fst snd take map length].
    rewrite app_nil_r, Nat.add_0_r. split; [done|]. split; [done|]. by left.
  - cbn [install_loop]. unfold bind, run_command.
    destruct (negb (rc (answer (module self) log (install_cmd base name)) =? 0)).
    + exists 1%nat. cbn. split; [lia|]. split; [done|]. right. by eexists.
    + destruct (IH (n0 + 1)%nat (log ++ [install_cmd base name]))
        as (k & Hk & Hlog & Hout).
      exists (S k). cbn [length take map]. split; [lia|].
      split; [by rewrite Hlog, <- app_assoc|].
      destruct Hout as [[Hret ->]|[msg Hmsg]]; [left|right; by eexists].
      split; [|done]. rewrite Hret. f_equal. lia.
Qed.

Lemma bind_FailJson {A B} (m : M A) (k : A -> M B) log msg log1 :
  m log = (FailJson msg, log1) -> bind m k log = (FailJson msg, log1).
Proof. unfold bind. by intros ->. Qed.

Lemma bind_ExitJson {A B} (m : M A) (k : A -> M B) log c msg log1 :
  m log = (ExitJson c msg, log1) -> bind m k log = (ExitJson c msg, log1).
Proof. unfold bind. by intros ->. Qed.

Lemma upgrade_step_cases self base pkgs log :
  (Py.truthy_bool (should_upgrade self) = false
   /\ upgrade_step self base pkgs log = (Return tt, log))
  \/ (Py.truthy_bool (should_upgrade self) = true
      /\ (upgrade_step self base pkgs log
          = (Return tt, log ++ [upgrade_cmd base])
          \/ (exists msg,
                upgrade_step self base pkgs log
                = (FailJson msg, log ++ [upgrade_cmd base]))
          \/ upgrade_step self base pkgs log
             = (ExitJson true "upgraded AUR packages",
                log ++ [upgrade_cmd base]))).
Proof.
  unfold upgrade_step. destruct (Py.truthy_bool (should_upgrade self));
    [right|left; by split].
  split; [done|]. unfold bind, run_command.
  destruct (negb (rc (answer (module self) log (upgrade_cmd base)) =? 0)).
  - right. left. by eexists.
  - destruct (length pkgs <? 1)%nat; [right; by right|by left].
Qed.

(** X7. Once the login name and the command prefix are resolved, whatever
    the outcome, the executor has run the bulk upgrade (if and only if
    upgrade was requested) and then the installs of the first k names of the
    list, in the order of the list, and nothing else; and it ends in
    [exit_json] or [fail_json], never by returning or raising. *)
Theorem executor_log_shape (os : Os) (self : Packer) (pkgs : list string)
    (log log1 : Log) (login : option string) (base : string) :
  login_name os self log = (Return login, log1) ->
  base_cmd self login (switched_user os login) log1 = (Return base, log1) ->
  exists k,
    (k <= length pkgs)%nat
    /\ (install_packages os self (Some pkgs) log).2
       = log1
         ++ (if Py.truthy_bool (should_upgrade self)
             then [upgrade_cmd base] else [])
         ++ map (install_cmd base) (take k pkgs)
    /\ match (install_packages os self (Some pkgs) log).1 with
       | ExitJson _ _ | FailJson _ => True
       | _ => False
       end.
Proof.
  intros Hlogin Hbase.
  set (finish :=
         bind (install_loop self base login (switched_user os login) pkgs 0)
           (fun total =>
              exit_json (A:=unit) (false || Nat.leb 1 total)
                ("installed " +:+ Py.str_of_nat total +:+ " package(s)"))).
  assert (Hstart :
            install_packages os self (Some pkgs) log
            = bind (upgrade_step self base pkgs) (fun _ => finish) log1).
  { unfold install_packages. cbn [default].
    rewrite (bind_step _ _ _ _ _ Hlogin). by rewrite (bind_step _ _ _ _ _ Hbase). }
  assert (Hloop : forall l,
             exists k,
               (k <= length pkgs)%nat
               /\ (finish l).2 = l ++ map (install_cmd base) (take k pkgs)
               /\ match (finish l).1 with
                  | ExitJson _ _ | FailJson _ => True
                  | _ => False
                  end).
  { intros l.
    destruct (install_loop_shape self base login (switched_user os login)
                pkgs 0%nat l) as (k & Hk & Hlog & Hout).
    exists k. split; [done|]. unfold finish, bind.
    destruct (install_loop self base login (switched_user os login) pkgs 0 l)
      as [[total|c m|m|e] l']; cbn [fst snd] in *.
    - by split.
    - by destruct Hout as [[[=] _]|[msg [=]]].
    - by split.
    - by destruct Hout as [[[=] _]|[msg [=]]]. }
  rewrite Hstart. clear Hstart.
  destruct (upgrade_step_cases self base pkgs log1)
    as [[-> Hup]|[-> [Hup|[[msg Hup]|Hup]]]].
  - rewrite (bind_step _ _ _ _ _ Hup).
    destruct (Hloop log1) as (k & Hk & Hlog & Hout).
    exists k. split; [done|]. by split.
  - rewrite (bind_step _ _ _ _ _ Hup).
    destruct (Hloop (log1 ++ [upgrade_cmd base])) as (k & Hk & Hlog & Hout).
    exists k. split; [done|]. split; [|done].
    rewrite Hlog. by rewrite <- app_assoc.
  - rewrite (bind_FailJson _ _ _ _ _ Hup).
    exists 0%nat. split; [lia|]. split; [|done].
    cbn [fst snd take map]. by rewrite app_nil_r.
  - rewrite (bind_ExitJson _ _ _ _ _ _ Hup).
    exists 0%nat. split; [lia|]. split; [|done].
    cbn [fst snd take map]. by rewrite app_nil_r.
Qed.

Lemma executor_log_shape_witness :
  let self := Sample.host_packer false
                (Sample.host_params ["foo"; "broken"; "cower"] "latest" (Some true)) in
  exists k,
    (k <= length ["foo"; "broken"; "cower"])%nat
    /\ (install_packages Sample.host_os self (Some ["foo"; "broken"; "cower"]) []).2
       = []
         ++ (if Py.truthy_bool (should_upgrade self)
             then [upgrade_cmd
                     "/usr/bin/sudo -u alice /usr/bin/packer --auronly --noconfirm --noedit"]
             else [])
         ++ map (install_cmd
                   "/usr/bin/sudo -u alice /usr/bin/packer --auronly --noconfirm --noedit")
              (take k ["foo"; "broken"; "cower"]).
Proof.
  cbv zeta.
  destruct (executor_log_shape Sample.host_os
              (Sample.host_packer false
                 (Sample.host_params ["foo"; "broken"; "cower"] "latest" (Some true)))
              ["foo"; "broken"; "cower"] [] [] (Some "alice")
              "/usr/bin/sudo -u alice /usr/bin/packer --auronly --noconfirm --noedit"
              eq_refl eq_refl) as (k & Hk & Hlog & _).
  exists k. split; [exact Hk|exact Hlog].
Defined.

(** X8. When the resolved login name differs from the process user and no
    sudo executable is found, the executor ends in [fail_json] right after
    identity resolution: neither the bulk upgrade nor any install is run. *)
Theorem executor_needs_sudo_to_switch (os : Os) (self : Packer)
    (pkgs : option (list string)) (log log1 : Log) (login : option string) :
  login_name os self log = (Return login, log1) ->
  switched_user os login = true ->
  get_bin_path (module self) "sudo" = None ->
  install_packages os self pkgs log
  = (FailJson "unable to locate sudo executable", log1).
Proof.
  intros Hlogin Hsw Hsudo. unfold install_packages.
  rewrite (bind_step _ _ _ _ _ Hlogin). unfold base_cmd.
  rewrite Hsw, Hsudo. reflexivity.
Qed.

Lemma executor_needs_sudo_to_switch_witness :
  install_packages Sample.host_os
    (Sample.no_sudo_packer (Sample.host_params ["foo"] "present" None))
    (Some ["foo"]) []
  = (FailJson "unable to locate sudo executable", []).
Proof.
  apply (executor_needs_sudo_to_switch Sample.host_os
           (Sample.no_sudo_packer (Sample.host_params ["foo"] "present" None))
           (Some ["foo"]) [] [] (Some "alice")); reflexivity.
Defined.

(** ** How a run ends *)






(** X10. Without a packer executable, or with packer but without expac,
    [main] ends in [fail_json] naming the missing one before any command is
    run; with both, it is the run of the instance that holds their paths. *)
Theorem main_needs_both_executables (os : Os) (module : AnsibleModule)
    (log : Log) :
  (get_bin_path module "packer" = None ->
   main os module log = (FailJson "unable to find packer executable", log))
  /\
  (forall packer_path,
     get_bin_path module "packer" = Some packer_path ->
     get_bin_path module "expac" = None ->
     main os module log = (FailJson "unable to find expac executable", log))
  /\
  (forall packer_path expac_path,
     get_bin_path module "packer" = Some packer_path ->
     get_bin_path module "expac" = Some expac_path ->
     main os module log
     = run os {| module := module; packer_path := packer_path;
                 expac_path := expac_path |} log)
  /\
  ((main os module log).2 <> log ->
   exists packer_path expac_path,
     get_bin_path module "packer" = Some packer_path
     /\ get_bin_path module "expac" = Some expac_path).
Proof.
  unfold main, Packer_init, bind.
  destruct (get_bin_path module "packer") as [pp|];
    [destruct (get_bin_path module "expac") as [ep|]|].
  - split; [done|]. split; [done|]. split; [by intros ? ? [= <-] [= <-]|].
    intros _. by eexists _, _.
  - split; [done|]. split; [done|]. by split.
  - split; [done|]. split; [done|]. by split.
Qed.

Lemma main_needs_both_executables_witness :
  main Sample.host_os
    (Sample.bare_module (Sample.host_params ["foo"] "present" None)) []
  = (FailJson "unable to find packer executable", [])
  /\ main Sample.host_os
       (Sample.host_module true (Sample.host_params ["aura"] "present" None)) []
     = run Sample.host_os
         (Sample.host_packer true (Sample.host_params ["aura"] "present" None)) [].
Proof.
  split.
  - apply (proj1 (main_needs_both_executables Sample.host_os
                    (Sample.bare_module (Sample.host_params ["foo"] "present" None))
                    [])).
    reflexivity.
  - apply (proj1 (proj2 (proj2
             (main_needs_both_executables Sample.host_os
                (Sample.host_module true
                   (Sample.host_params ["aura"] "present" None)) [])))
             "/usr/bin/packer" "/usr/bin/expac"); reflexivity.
Defined.

(** ** What the state option changes *)

Lemma check_packages_loop_set_state st self su pkgs :
  forall w a n log,
    check_packages_loop (set_state st self) su pkgs w a n log
    = check_packages_loop self su pkgs w a n log.
Proof.
  induction pkgs as [|name pkgs IH]; intros w a n log; [reflexivity|].
  cbn [check_packages_loop]. unfold bind.
  change (package_info (set_state st self) name log)
    with (package_info self name log).
  destruct (package_info self name log) as [[[info|]|c m|m|e] log1];
    try reflexivity; [|apply IH].
  change (package_installed_version (set_state st self) name log1)
    with (package_installed_version self name log1).
  destruct (package_installed_version self name log1)
    as [[v|c m|m|e] log2]; try reflexivity.
  destruct (Py.truthy_bool su), v as [v|]; try apply IH.
  destruct (info !! "version") as [version|]; [|reflexivity].
  destruct (negb (String.eqb v version)); apply IH.
Qed.

Lemma install_loop_set_state st self base login sw pkgs :
  forall n0 log,
    install_loop (set_state st self) base login sw pkgs n0 log
    = install_loop self base login sw pkgs n0 log.
Proof.
  induction pkgs as [|name pkgs IH]; intros n0 log; [reflexivity|].
  cbn [install_loop]. unfold bind.
  change (run_command (module (set_state st self)) (install_cmd base name) log)
    with (run_command (module self) (install_cmd base name) log).
  destruct (run_command (module self) (install_cmd base name) log)
    as [[r|c m|m|e] log1]; try reflexivity.
  destruct (negb (rc r =? 0)); [reflexivity|apply IH].
Qed.

Lemma install_packages_set_state st os self pkgs log :
  install_packages os (set_state st self) pkgs log
  = install_packages os self pkgs log.
Proof.
  unfold install_packages, bind.
  change (login_name os (set_state st self) log) with (login_name os self log).
  destruct (login_name os self log) as [[login|c m|m|e] log1]; try reflexivity.
  change (base_cmd (set_state st self) login (switched_user os login) log1)
    with (base_cmd self login (switched_user os login) log1).
  destruct (base_cmd self login (switched_user os login) log1)
    as [[base|c m|m|e] log2]; try reflexivity.
  change (upgrade_step (set_state st self) base (default [] pkgs) log2)
    with (upgrade_step self base (default [] pkgs) log2).
  destruct (upgrade_step self base (default [] pkgs) log2)
    as [[u|c m|m|e] log3]; try reflexivity.
  by rewrite install_loop_set_state.
Qed.

(** X11. The state option reaches a run only through [normalized_state]:
    two values with the same normal form, such as installed and present,
    give the same outcome and the same commands. *)
Theorem run_depends_on_normalized_state (os : Os) (self : Packer)
    (st1 st2 : option string) (log : Log) :
  normalized_state (set_state st1 self) = normalized_state (set_state st2 self) ->
  run os (set_state st1 self) log = run os (set_state st2 self) log.
Proof.
  intros Hn. unfold run. rewrite Hn. unfold check_packages, should_update.
  change (param_name (params (module (set_state st1 self))))
    with (param_name (params (module self))).
  change (param_name (params (module (set_state st2 self))))
    with (param_name (params (module self))).
  unfold bind. rewrite !check_packages_loop_set_state.
  destruct (check_packages_loop self None _ [] [] [] log)
    as [[[[w a] n]|c m|m|e] log1]; try reflexivity.
  change (check_mode (module (set_state st1 self)))
    with (check_mode (module self)).
  change (check_mode (module (set_state st2 self)))
    with (check_mode (module self)).
  destruct (check_mode (module self)); [reflexivity|].
  destruct (Nat.leb 1 (length n)); [reflexivity|].
  change (should_upgrade (set_state st1 self)) with (should_upgrade self).
  change (should_upgrade (set_state st2 self)) with (should_upgrade self).
  destruct (_ && _)%bool; [reflexivity|].
  by rewrite !install_packages_set_state.
Qed.

Lemma run_depends_on_normalized_state_witness :
  let self := Sample.host_packer false (Sample.host_params ["cower"; "foo"] "x" None) in
  run Sample.host_os (set_state (Some "installed") self) []
  = run Sample.host_os (set_state (Some "present") self) [].
Proof.
  cbv zeta.
  apply (run_depends_on_normalized_state Sample.host_os
           (Sample.host_packer false (Sample.host_params ["cower"; "foo"] "x" None))
           (Some "installed") (Some "present") []).
  reflexivity.
Defined.

(** ** Whole runs on a host that answers the same every time *)

Lemma filter_none {A} (f : A -> bool) l :
  (forall x, In x l -> f x = false) -> List.filter f l = [].
Proof.
  induction l as [|x l IH]; intros H; [done|]. cbn [List.filter].
  rewrite (H x (or_introl eq_refl)). apply IH. intros y Hy. apply H. by right.
Qed.

Lemma filter_all {A} (f : A -> bool) l :
  (forall x, In x l -> f x = true) -> List.filter f l = l.
Proof.
  induction l as [|x l IH]; intros H; [done|]. cbn [List.filter].
  rewrite (H x (or_introl eq_refl)). f_equal. apply IH.
  intros y Hy. apply H. by right.
Qed.

(** X12. Outside check mode and without upgrade, on a host that answers the
    same every time, when every requested name is found and installed the run
    ends in [exit_json] with changed false and the all-packages-already
    message, having run the two queries of each name and nothing else: no
    identity resolution, no upgrade, no install. *)
Theorem run_changes_nothing_when_satisfied (os : Os) (self : Packer)
    (log : Log) :
  stateless (module self) ->
  check_mode (module self) = false ->
  Py.truthy_bool (should_upgrade self) = false ->
  (forall name,
     In name (default [] (param_name (params (module self)))) ->
     found self name = true /\ installed self name = true) ->
  (forall name,
     In name (default [] (param_name (params (module self)))) ->
     exists d,
       parse_info (stdout (answer (module self) [] (info_cmd self name))) = Ok d) ->
  (forall name,
     In name (default [] (param_name (params (module self)))) ->
     stdout (answer (module self) [] (version_cmd self name)) <> EmptyString) ->
  run os self log
  = (ExitJson false
       ("all packages already " +:+ Py.str_of_opt (normalized_state self)),
     log ++ concat (map (fun name => [info_cmd self name; version_cmd self name])
                      (default [] (param_name (params (module self)))))).
Proof.
  intros Hst Hcheck Hup Hall Hinfo Hver.
  set (pkgs := default [] (param_name (params (module self)))) in *.
  assert (Hcp : check_packages self pkgs log
                = (Return ([], pkgs, []),
                   log ++ concat (map (fun name =>
                                         [info_cmd self name; version_cmd self name])
                                    pkgs))).
  { unfold check_packages.
    rewrite (check_packages_loop_stateless self (should_update self) pkgs Hst);
      [|by intros; apply Hinfo|by intros; apply Hver|done].
    assert (E1 : List.filter
                   (fun x => found self x
                             && negb (satisfied self (should_update self) x))
                   pkgs = []).
    { apply filter_none. intros x Hx. destruct (Hall x Hx) as [Hf Hi].
      unfold satisfied. cbn [should_update Py.truthy_bool]. by rewrite Hf, Hi. }
    assert (E2 : List.filter
                   (fun x => found self x
                             && satisfied self (should_update self) x)
                   pkgs = pkgs).
    { apply filter_all. intros x Hx. destruct (Hall x Hx) as [Hf Hi].
      unfold satisfied. cbn [should_update Py.truthy_bool]. by rewrite Hf, Hi. }
    assert (E3 : List.filter (fun x => negb (found self x)) pkgs = []).
    { apply filter_none. intros x Hx. destruct (Hall x Hx) as [Hf Hi].
      by rewrite Hf. }
    assert (E4 : map (queries self) pkgs
                 = map (fun name => [info_cmd self name; version_cmd self name])
                     pkgs).
    { apply map_ext_in. intros x Hx.
      unfold queries. by rewrite (proj1 (Hall x Hx)). }
    cbn [app]. by rewrite E1, E2, E3, E4. }
  unfold run. fold pkgs. rewrite (bind_step _ _ _ _ _ Hcp).
  rewrite Hcheck, Hup. reflexivity.
Qed.

Lemma run_changes_nothing_when_satisfied_witness :
  let self := Sample.host_packer false (Sample.host_params ["cower"] "installed" None) in
  run Sample.host_os self []
  = (ExitJson false
       ("all packages already " +:+ Py.str_of_opt (normalized_state self)),
     [] ++ concat (map (fun name => [info_cmd self name; version_cmd self name])
                     ["cower"])).
Proof.
  cbv zeta.
  apply (run_changes_nothing_when_satisfied Sample.host_os
           (Sample.host_packer false
              (Sample.host_params ["cower"] "installed" None)) []).
  - intros log log' cmd. reflexivity.
  - reflexivity.
  - reflexivity.
  - intros name [<-|[]]. split; reflexivity.
  - intros name [<-|[]]. eexists. vm_compute. reflexivity.
  - intros name [<-|[]]. vm_compute. discriminate.
Defined.

(** X13. Outside check mode and without upgrade, on a host that answers the
    same every time, when every requested name is found, some are not
    installed, and the install of each of those succeeds, the run installs
    exactly the names that are not installed, each occurrence once and in
    request order, after the queries and identity resolution, and ends in
    [exit_json] with changed true and their number in the message. *)
Theorem run_installs_what_is_missing (os : Os) (self : Packer)
    (log log1 : Log) (login : option string) (base : string) :
  stateless (module self) ->
  check_mode (module self) = false ->
  Py.truthy_bool (should_upgrade self) = false ->
  (forall name,
     In name (default [] (param_name (params (module self)))) ->
     found self name = true
     /\ exists d,
          parse_info (stdout (answer (module self) [] (info_cmd self name)))
          = Ok d) ->
  (forall name,
     In name (default [] (param_name (params (module self)))) ->
     installed self name = true ->
     stdout (answer (module self) [] (version_cmd self name)) <> EmptyString) ->
  List.filter (fun x => negb (installed self x))
    (default [] (param_name (params (module self)))) <> [] ->
  login_name os self
    (log ++ concat (map (queries self)
                      (default [] (param_name (params (module self))))))
  = (Return login, log1) ->
  base_cmd self login (switched_user os login) log1 = (Return base, log1) ->
  (forall name,
     In name (default [] (param_name (params (module self)))) ->
     installed self name = false ->
     rc (answer (module self) [] (install_cmd base name)) = 0) ->
  run os self log
  = (ExitJson true
       ("installed "
        +:+ Py.str_of_nat
              (length (List.filter (fun x => negb (installed self x))
                         (default [] (param_name (params (module self))))))
        +:+ " package(s)"),
     log1 ++ map (install_cmd base)
               (List.filter (fun x => negb (installed self x))
                  (default [] (param_name (params (module self)))))).
Proof.
  intros Hst Hcheck Hup Hall Hver Hmiss Hlogin Hbase Hinst.
  set (pkgs := default [] (param_name (params (module self)))) in *.
  set (missing := List.filter (fun x => negb (installed self x)) pkgs) in *.
  assert (Hcp : check_packages self pkgs log
                = (Return (missing,
                           List.filter (fun x => installed self x) pkgs, []),
                   log ++ concat (map (queries self) pkgs))).
  { unfold check_packages.
    rewrite (check_packages_loop_stateless self (should_update self) pkgs Hst);
      [|by intros x Hx _; apply (Hall x Hx)
       |by intros x Hx _ Hi; apply Hver|done].
    assert (E1 : List.filter
                   (fun x => found self x
                             && negb (satisfied self (should_update self) x))
                   pkgs = missing).
    { apply filter_ext_in. intros x Hx. unfold satisfied.
      cbn [should_update Py.truthy_bool]. by rewrite (proj1 (Hall x Hx)). }
    assert (E2 : List.filter
                   (fun x => found self x
                             && satisfied self (should_update self) x)
                   pkgs = List.filter (fun x => installed self x) pkgs).
    { apply filter_ext_in. intros x Hx. unfold satisfied.
      cbn [should_update Py.truthy_bool]. by rewrite (proj1 (Hall x Hx)). }
    assert (E3 : List.filter (fun x => negb (found self x)) pkgs = []).
    { apply filter_none. intros x Hx. by rewrite (proj1 (Hall x Hx)). }
    cbn [app]. by rewrite E1, E2, E3. }
  assert (Hloop : install_loop self base login (switched_user os login)
                    missing 0 log1
                  = (Return (0 + length missing)%nat,
                     log1 ++ map (install_cmd base) missing)).
  { apply install_loop_ok. intros i x Hx. rewrite (Hst _ []).
    assert (Hin : In x missing).
    { apply list_elem_of_In, list_elem_of_lookup. by exists i. }
    apply filter_In in Hin as [Hin Hni]. apply Hinst; [done|].
    by destruct (installed self x). }
  assert (Hchanged : Nat.leb 1 (length missing) = true)
    by (by destruct missing).
  unfold run. fold pkgs. rewrite (bind_step _ _ _ _ _ Hcp).
  rewrite Hcheck, Hchanged.
  change (Nat.leb 1 (length (@nil string))) with false. cbn [negb andb].
  unfold install_packages. cbn [default].
  rewrite (bind_step _ _ _ _ _ Hlogin), (bind_step _ _ _ _ _ Hbase).
  unfold upgrade_step. rewrite Hup. unfold bind at 1, ret at 1.
  rewrite (bind_step _ _ _ _ _ Hloop). cbn [Nat.add orb].
  by rewrite Hchanged.
Qed.

Lemma run_installs_what_is_missing_witness :
  let self := Sample.host_packer false
                (Sample.host_params ["cower"; "foo"] "present" None) in
  run Sample.host_os self []
  = (ExitJson true "installed 1 package(s)",
     [info_cmd self "cower"; version_cmd self "cower";
      info_cmd self "foo"; version_cmd self "foo";
      "/usr/bin/sudo -u alice /usr/bin/packer --auronly --noconfirm --noedit -S foo"]).
Proof.
  cbv zeta.
  refine (eq_trans
            (run_installs_what_is_missing Sample.host_os
               (Sample.host_packer false
                  (Sample.host_params ["cower"; "foo"] "present" None))
               []
               ["/usr/bin/packer -Si --auronly cower";
                "/usr/bin/expac -Q '%v' cower";
                "/usr/bin/packer -Si --auronly foo";
                "/usr/bin/expac -Q '%v' foo"]
               (Some "alice")
               "/usr/bin/sudo -u alice /usr/bin/packer --auronly --noconfirm --noedit"
               _ eq_refl eq_refl _ _ _ _ _ _) _).
  - intros log log' cmd. reflexivity.
  - intros name [<-|[<-|[]]]; (split; [reflexivity|]);
      eexists; vm_compute; reflexivity.
  - intros name [<-|[<-|[]]] Hi; vm_compute in Hi; discriminate.
  - vm_compute. discriminate.
  - vm_compute. reflexivity.
  - vm_compute. reflexivity.
  - intros name [<-|[<-|[]]] Hi; vm_compute in Hi; try discriminate.
    reflexivity.
  - vm_compute. reflexivity.
Defined.

Lemma login_name_always_returns_witness :
  exists login log1,
    login_name Sample.host_os
      (Sample.host_packer false (Sample.host_params ["foo"] "present" None)) []
    = (Return login, log1).
Proof.
  destruct (login_name_always_returns Sample.host_os
              (Sample.host_packer false
                 (Sample.host_params ["foo"] "present" None)) [])
    as (login & log1 & Hrun & _).
  exists login, log1. exact Hrun.
Defined.
